(** * IceFlow UI: bounding box and query-parameter assembly

    A shallow embedding of the logic of [notebooks/iceflow/iceflow/ui.py]
    (class [IceFlowUI]): [bounding_box], [build_parameters], [query_cmr]
    and [place_data_orders].

    Python objects are modelled as follows.
    - A number (a GeoJSON coordinate) is any type carrying Python's [<]
      and [str]; see [PyNumber].  The instance used for concrete runs is
      Python's [int].
    - [None]-or-value is [option]; a raised exception is [Raise].
    - A [list] object lives in a store and is referred to by address, so
      that [self.datasets_iceflow] and [params['datasets']] alias.
    - A [dict] is an association list in insertion order.
    - The attributes of [self] that the four methods touch form the
      record [IceFlowUI]; [print] appends to [stdout]; the catalogue
      client [self.iceflow] is an interface ([IceflowClient]).

    [get_parameters], [set_credentials], [authenticate] and [order_status]
    are modelled after these, on the same state. *)

From Stdlib Require Import ZArith Ascii String List DecimalString DecimalNat Lia.
From stdpp Require Import base list strings.

Local Open Scope string_scope.
Local Open Scope list_scope.

(** ** Exceptions and outcomes *)

Inductive exn : Type :=
| TypeError
| ValueError
| IndexError
| AttributeError.

Inductive outcome (A : Type) : Type :=
| Return (a : A)
| Raise (e : exn).
Arguments Return {A} a.
Arguments Raise {A} e.

Definition outcome_bind {A B} (m : outcome A) (k : A -> outcome B) : outcome B :=
  match m with
  | Return a => k a
  | Raise e => Raise e
  end.

Definition fails {A} (m : outcome A) : Prop := exists e, m = Raise e.

(** ** Python numbers *)

(** What [bounding_box] and the f-string of [build_parameters] use of a
    coordinate: the comparison [<] (and [>], its converse) of [min] and
    [max], and [str].  The laws say that [<] is a strict weak order, as it
    is on [int] and on every [float] but NaN. *)
Class PyNumber (T : Type) : Type := {
  py_lt : T -> T -> bool;
  py_str : T -> string;
  py_lt_irrefl : forall x, py_lt x x = false;
  py_lt_trans : forall x y z,
    py_lt x y = true -> py_lt y z = true -> py_lt x z = true;
  py_le_trans : forall x y z,
    py_lt y x = false -> py_lt z y = false -> py_lt z x = false
}.

Definition py_gt {T} `{PyNumber T} (x y : T) : bool := py_lt y x.
Definition py_le {T} `{PyNumber T} (x y : T) : bool := negb (py_lt y x).

(** Python's [int]: unbounded, [str] in decimal. *)
#[export] Instance PyNumber_int : PyNumber Z := {|
  py_lt := Z.ltb;
  py_str := fun z => NilZero.string_of_int (Z.to_int z);
  py_lt_irrefl := Z.ltb_irrefl;
  py_lt_trans := ltac:(intros x y z; rewrite !Z.ltb_lt; lia);
  py_le_trans := ltac:(intros x y z; rewrite !Z.ltb_ge; lia)
|}.

(** ** Built-ins: [min], [max], [zip] of unpacked arguments, unpacking, indexing *)

(** [a, b = iterable] *)
Definition unpack2 {A} (items : list A) : outcome (A * A) :=
  match items with
  | [a; b] => Return (a, b)
  | _ => Raise ValueError
  end.

(** [items[i]] for [i >= 0] *)
Definition py_index {A} (items : list A) (i : nat) : outcome A :=
  match items !! i with
  | Some a => Return a
  | None => Raise IndexError
  end.

Section Builtins.
Context {T : Type} `{PyNumber T}.

(** [min(iterable)]: keeps the first item and replaces it by each later
    item that is [<] it. *)
Fixpoint min_from (best : T) (items : list T) : T :=
  match items with
  | [] => best
  | item :: rest => min_from (if py_lt item best then item else best) rest
  end.

Definition py_min (items : list T) : outcome T :=
  match items with
  | [] => Raise ValueError
  | first :: rest => Return (min_from first rest)
  end.

(** [max(iterable)]: the same with [>]. *)
Fixpoint max_from (best : T) (items : list T) : T :=
  match items with
  | [] => best
  | item :: rest => max_from (if py_gt item best then item else best) rest
  end.

Definition py_max (items : list T) : outcome T :=
  match items with
  | [] => Raise ValueError
  | first :: rest => Return (max_from first rest)
  end.

(** [zip] applied to the unpacked [points]: the columns of [points]; no
    column at all when there is no point.  A point is a pair [x, y]. *)
Definition zip_star (points : list (T * T)) : list (list T) :=
  match points with
  | [] => []
  | _ :: _ => [map fst points; map snd points]
  end.

(** [IceFlowUI.bounding_box]; [points] is [None] or a list of points. *)
Definition bounding_box (points : option (list (T * T))) : outcome (list (T * T)) :=
  match points with
  | None => Raise TypeError
  | Some pts =>
      outcome_bind (unpack2 (zip_star pts)) (fun '(x_coordinates, y_coordinates) =>
      outcome_bind (py_min x_coordinates) (fun min_x =>
      outcome_bind (py_min y_coordinates) (fun min_y =>
      outcome_bind (py_max x_coordinates) (fun max_x =>
      outcome_bind (py_max y_coordinates) (fun max_y =>
      Return [(min_x, min_y); (max_x, max_y)])))))
  end.
End Builtins.

(** ** Dates *)

(** A [datetime]: the calendar date and the time of day in seconds. *)
Record datetime : Type := Datetime {
  dt_year : nat;
  dt_month : nat;
  dt_day : nat;
  dt_seconds : nat
}.

Record date : Type := Date {
  year : nat;
  month : nat;
  day : nat
}.

(** [datetime.date()] *)
Definition datetime_date (d : datetime) : date :=
  Date (dt_year d) (dt_month d) (dt_day d).

Definition str_nat (n : nat) : string := NilZero.string_of_uint (Nat.to_uint n).

(** A decimal number padded with zeros on the left to [width] digits. *)
Fixpoint zero_pad (fill : nat) (s : string) : string :=
  match fill with
  | O => s
  | S fill' => zero_pad fill' ("0" +:+ s)
  end.

Definition padded (width n : nat) : string :=
  let s := str_nat n in zero_pad (width - String.length s) s.

(** [date.strftime('%Y-%m-%d')], for the years of four digits that the
    range selector offers (1993 to now).  Below 1000 whether the year is
    padded depends on the Python version and the C library; it is padded
    here, as the library documents it, and nothing below relies on it. *)
Definition strftime_Ymd (d : date) : string :=
  padded 4 (year d) +:+ "-" +:+ padded 2 (month d) +:+ "-" +:+ padded 2 (day d).

(** ** The store of list objects, and dicts *)

Abbreviation loc := nat (only parsing).

(** The list objects allocated so far, by address; each holds strings. *)
Abbreviation store := (list (list string)) (only parsing).

(** A value held in the [params] dict. *)
Inductive value : Type :=
| VNone
| VStr (s : string)
| VList (l : loc).

Definition dict : Type := list (string * value).

(** [d[key] = v]: replaces the value of an existing key in place, else adds
    the key at the end. *)
Fixpoint dict_set (d : dict) (key : string) (v : value) : dict :=
  match d with
  | [] => [(key, v)]
  | (k, v0) :: rest =>
      if String.eqb k key then (k, v) :: rest else (k, v0) :: dict_set rest key v
  end.

(** [key in d] *)
Definition dict_has (d : dict) (key : string) : bool :=
  existsb (fun kv => String.eqb (fst kv) key) d.

Definition value_of_str (v : option string) : value :=
  match v with
  | Some s => VStr s
  | None => VNone
  end.

(** [v != s] for [v] a [str] or [None] and [s] a [str] *)
Definition py_ne (v : option string) (s : string) : bool :=
  match v with
  | Some x => negb (String.eqb x s)
  | None => true
  end.

Definition is_not_None {A} (v : option A) : bool :=
  match v with
  | Some _ => true
  | None => false
  end.

Definition is_None {A} (v : option A) : bool :=
  match v with
  | Some _ => false
  | None => true
  end.

(** What a dict reads as, every list replaced by its content in the store:
    the value compared by Python's [==]. *)
Inductive pyvalue : Type :=
| PNone
| PStr (s : string)
| PList (items : list string).

Definition read_value (h : store) (v : value) : pyvalue :=
  match v with
  | VNone => PNone
  | VStr s => PStr s
  | VList l => PList (default [] (h !! l))
  end.

Definition read_dict (h : store) (d : dict) : list (string * pyvalue) :=
  map (fun kv => (fst kv, read_value h (snd kv))) d.

Definition read_result (h : store) (r : outcome (option dict))
  : outcome (option (list (string * pyvalue))) :=
  match r with
  | Return p => Return (option_map (read_dict h) p)
  | Raise e => Raise e
  end.

(** ** The state of the component *)

(** [self.dc.last_draw['geometry']] when it is not [None]: a GeoJSON
    geometry; [coordinates] is its list of rings. *)
Record geometry (T : Type) : Type := Geometry {
  coordinates : list (list (T * T))
}.
Arguments Geometry {T} _.
Arguments coordinates {T} _.

(** The attributes of [self].  [datasets_iceflow] is not set by
    [__init__]: it is [None] here until [build_parameters] first binds it. *)
Record IceFlowUI (T : Type) : Type := UI {
  last_draw_geometry : option (geometry T);
  dates_range_value : datetime * datetime;
  dataset_value : list string;
  itrf_value : option string;
  epoch_value : string;
  is2_value : string;
  current_projection : string;
  credentials : option (string * string * string);
  start_date : datetime;
  end_date : datetime;
  datasets_iceflow : option loc
}.
Arguments UI {T} _ _ _ _ _ _ _ _ _ _ _.
Arguments last_draw_geometry {T} _.
Arguments dates_range_value {T} _.
Arguments dataset_value {T} _.
Arguments itrf_value {T} _.
Arguments epoch_value {T} _.
Arguments is2_value {T} _.
Arguments current_projection {T} _.
Arguments credentials {T} _.
Arguments start_date {T} _.
Arguments end_date {T} _.
Arguments datasets_iceflow {T} _.

Definition with_datasets_iceflow {T} (s : IceFlowUI T) (l : option loc) : IceFlowUI T :=
  UI (last_draw_geometry s) (dates_range_value s) (dataset_value s)
     (itrf_value s) (epoch_value s) (is2_value s) (current_projection s)
     (credentials s) (start_date s) (end_date s) l.

(** The calls that the claims speak of, in the order they happen. *)
Inductive event : Type :=
| Call_build_parameters
| Call_iceflow_query_cmr (params : option dict)
| Call_iceflow_post_data_orders (params : option dict).

(** [self.iceflow], an [IceflowClient]: its module is not part of the
    component, so its two operations are taken as given.  Each receives
    the argument and the store it refers to, and may raise. *)
Class IceflowClient (C G O : Type) : Type := {
  iceflow_query_cmr : option dict -> store -> C -> outcome G * C;
  iceflow_post_data_orders : option dict -> store -> C -> outcome O * C
}.

Record world (T C : Type) : Type := World {
  self : IceFlowUI T;
  heap : store;
  stdout : list string;
  iceflow : C;
  trace : list event
}.
Arguments World {T C} _ _ _ _ _.
Arguments self {T C} _.
Arguments heap {T C} _.
Arguments stdout {T C} _.
Arguments iceflow {T C} _.
Arguments trace {T C} _.

(** ** The methods *)

Section Methods.
Context {T : Type} `{PyNumber T}.
Context {C G O : Type} `{IceflowClient C G O}.

(** A computation over the world that returns or raises; what was done
    before a raise stays done. *)
Definition M (A : Type) : Type := world T C -> outcome A * world T C.

#[export] Instance M_ret : MRet M := fun A a w => (Return a, w).
#[export] Instance M_bind : MBind M := fun A B k m w =>
  match m w with
  | (Return a, w') => k a w'
  | (Raise e, w') => (Raise e, w')
  end.

Definition lift {A} (o : outcome A) : M A := fun w => (o, w).

Definition get_self : M (IceFlowUI T) := fun w => (Return (self w), w).

Definition log (e : event) : M unit := fun w =>
  (Return tt, World (self w) (heap w) (stdout w) (iceflow w) (trace w ++ [e])).

Definition print (line : string) : M unit := fun w =>
  (Return tt, World (self w) (heap w) (stdout w ++ [line]) (iceflow w) (trace w)).

(** [[]]: a new, empty list object *)
Definition new_list : M loc := fun w =>
  (Return (length (heap w)),
   World (self w) (heap w ++ [[]]) (stdout w) (iceflow w) (trace w)).

(** [self.datasets_iceflow = l] *)
Definition set_datasets_iceflow (l : loc) : M unit := fun w =>
  (Return tt,
   World (with_datasets_iceflow (self w) (Some l)) (heap w) (stdout w)
         (iceflow w) (trace w)).

(** [self.datasets_iceflow] *)
Definition get_datasets_iceflow : M loc := fun w =>
  match datasets_iceflow (self w) with
  | Some l => (Return l, w)
  | None => (Raise AttributeError, w)
  end.

(** [l.append(item)], in place.  An address in use is always allocated. *)
Definition list_append (l : loc) (item : string) : M unit := fun w =>
  (Return tt,
   World (self w) (alter (fun items => items ++ [item]) l (heap w)) (stdout w)
         (iceflow w) (trace w)).

Fixpoint for_each {A} (items : list A) (body : A -> M unit) : M unit :=
  match items with
  | [] => mret tt
  | item :: rest => body item ;; for_each rest body
  end.

(** [coords[i][j]] *)
Definition index2 {A} (rows : list (list A)) (i j : nat) : outcome A :=
  outcome_bind (py_index rows i) (fun row => py_index row j).

(** [IceFlowUI.build_parameters] *)
Definition build_parameters : M (option dict) :=
  log Call_build_parameters ;;
  fresh ← new_list;
  set_datasets_iceflow fresh ;;
  s ← get_self;
  match last_draw_geometry s with
  | None =>
      print "You need to select an area using the bbox or polygon tools" ;;
      mret None
  | Some g =>
      ring ← lift (py_index (coordinates g) 0);
      box ← lift (bounding_box (Some ring));
      let coords := map (fun coord : T * T => [fst coord; snd coord]) box in
      c00 ← lift (index2 coords 0 0);
      c01 ← lift (index2 coords 0 1);
      c10 ← lift (index2 coords 1 0);
      c11 ← lift (index2 coords 1 1);
      let bbox := py_str c00 +:+ "," +:+ py_str c01 +:+ "," +:+
                  py_str c10 +:+ "," +:+ py_str c11 in
      let start := strftime_Ymd (datetime_date (fst (dates_range_value s))) in
      let end_ := strftime_Ymd (datetime_date (snd (dates_range_value s))) in
      let ITRF := itrf_value s in
      let epoch := epoch_value s in
      let selected_datasets := dataset_value s in
      for_each selected_datasets (fun d =>
        l ← get_datasets_iceflow; list_append l d) ;;
      (if negb (String.eqb (is2_value s) "None")
       then l ← get_datasets_iceflow; list_append l (is2_value s)
       else mret tt) ;;
      l ← get_datasets_iceflow;
      let params := [("start", VStr start); ("end", VStr end_);
                     ("bbox", VStr bbox); ("datasets", VList l)] in
      let params :=
        if py_ne ITRF "None" && is_not_None ITRF
        then dict_set params "itrf" (value_of_str ITRF) else params in
      let params :=
        if negb (String.eqb epoch "None") && negb (String.eqb epoch "")
        then dict_set params "epoch" (VStr epoch) else params in
      mret (Some params)
  end.

(** [self.iceflow.query_cmr(params)] *)
Definition call_iceflow_query_cmr (params : option dict) : M G := fun w =>
  let '(r, c) := iceflow_query_cmr params (heap w) (iceflow w) in
  (r, World (self w) (heap w) (stdout w) c
            (trace w ++ [Call_iceflow_query_cmr params])).

(** [self.iceflow.post_data_orders(params)] *)
Definition call_iceflow_post_data_orders (params : option dict) : M O := fun w =>
  let '(r, c) := iceflow_post_data_orders params (heap w) (iceflow w) in
  (r, World (self w) (heap w) (stdout w) c
            (trace w ++ [Call_iceflow_post_data_orders params])).

(** [IceFlowUI.query_cmr]; [event] is what the button passes, unused. *)
Definition query_cmr {E} (event : option E) (params : option dict) : M G :=
  params ← (if is_None params then build_parameters else mret params);
  granules ← call_iceflow_query_cmr params;
  mret granules.

(** [IceFlowUI.place_data_orders] *)
Definition place_data_orders {E} (event : option E) (params : option dict) : M O :=
  params ← (if is_None params then build_parameters else mret params);
  orders ← call_iceflow_post_data_orders params;
  mret orders.
End Methods.

(** [d[key]], when the key is there *)
Fixpoint dict_get (d : dict) (key : string) : option value :=
  match d with
  | [] => None
  | (k, v) :: rest => if String.eqb k key then Some v else dict_get rest key
  end.

(** ** What [build_parameters] amounts to

    The cases of the drawn geometry, and for each the result, the content
    of the list that [self.datasets_iceflow] is left bound to, and what is
    printed.  [build_parameters_closed] below proves that the method
    computes exactly this. *)

Inductive selection (T : Type) : Type :=
| NoSelection
| NoRing
| EmptyRing
| Ring (p : T * T) (ps : list (T * T)).
Arguments NoSelection {T}.
Arguments NoRing {T}.
Arguments EmptyRing {T}.
Arguments Ring {T} p ps.

Definition no_selection_message : string :=
  "You need to select an area using the bbox or polygon tools".

Section ClosedForm.
Context {T : Type} `{PyNumber T}.

Definition selection_of (s : IceFlowUI T) : selection T :=
  match last_draw_geometry s with
  | None => NoSelection
  | Some g =>
      match coordinates g with
      | [] => NoRing
      | [] :: _ => EmptyRing
      | (p :: ps) :: _ => Ring p ps
      end
  end.

Definition bbox_string (p : T * T) (ps : list (T * T)) : string :=
  py_str (min_from (fst p) (map fst ps)) +:+ "," +:+
  py_str (min_from (snd p) (map snd ps)) +:+ "," +:+
  py_str (max_from (fst p) (map fst ps)) +:+ "," +:+
  py_str (max_from (snd p) (map snd ps)).

Definition with_itrf (s : IceFlowUI T) (params : dict) : dict :=
  if py_ne (itrf_value s) "None" && is_not_None (itrf_value s)
  then dict_set params "itrf" (value_of_str (itrf_value s)) else params.

Definition with_epoch (s : IceFlowUI T) (params : dict) : dict :=
  if negb (String.eqb (epoch_value s) "None") && negb (String.eqb (epoch_value s) "")
  then dict_set params "epoch" (VStr (epoch_value s)) else params.

Definition params_for (s : IceFlowUI T) (p : T * T) (ps : list (T * T)) (l : loc)
  : dict :=
  with_epoch s (with_itrf s
    [("start", VStr (strftime_Ymd (datetime_date (fst (dates_range_value s)))));
     ("end", VStr (strftime_Ymd (datetime_date (snd (dates_range_value s)))));
     ("bbox", VStr (bbox_string p ps));
     ("datasets", VList l)]).

Definition assembled_datasets (s : IceFlowUI T) : list string :=
  dataset_value s ++
  (if String.eqb (is2_value s) "None" then [] else [is2_value s]).

Definition derived_result (s : IceFlowUI T) (l : loc) : outcome (option dict) :=
  match selection_of s with
  | NoSelection => Return None
  | NoRing => Raise IndexError
  | EmptyRing => Raise ValueError
  | Ring p ps => Return (Some (params_for s p ps l))
  end.

Definition derived_list (s : IceFlowUI T) : list string :=
  match selection_of s with
  | Ring _ _ => assembled_datasets s
  | _ => []
  end.

Definition derived_output (s : IceFlowUI T) : list string :=
  match selection_of s with
  | NoSelection => [no_selection_message]
  | _ => []
  end.
End ClosedForm.

(** ** Concrete states

    States over Python [int] coordinates with a client that counts the
    requests it has served and finds no granule. *)

Definition counting_client : IceflowClient nat nat nat := {|
  iceflow_query_cmr := fun _ _ served => (Return O, S served);
  iceflow_post_data_orders := fun _ _ served => (Return O, S served)
|}.

Definition ring_60N : list (Z * Z) :=
  [(-10, 60); (-10, 65); (0, 65); (0, 60)]%Z.

Definition year_2015 : datetime * datetime :=
  (Datetime 2015 1 1 0, Datetime 2015 12 31 0).

(** As [__init__] leaves the other attributes. *)
Definition ui_with (geo : option (geometry Z)) (itrf : option string)
           (epoch is2 : string) : IceFlowUI Z :=
  UI geo year_2015 ["ILATM1B"] itrf epoch is2 "north" None
     (Datetime 1993 1 1 0) (Datetime 2015 12 31 0) None.

Definition fresh_world (s : IceFlowUI Z) : world Z nat := World s [] [] O [].

(** A rectangle drawn, [ITRF2014] selected, nothing else. *)
Definition w_itrf2014 : world Z nat :=
  fresh_world (ui_with (Some (Geometry [ring_60N])) (Some "ITRF2014") "" "None").

(** The same rectangle with [ATL06] as secondary dataset and itrf ["None"]. *)
Definition w_atl06 : world Z nat :=
  fresh_world (ui_with (Some (Geometry [ring_60N])) (Some "None") "" "ATL06").

(** Nothing drawn yet. *)
Definition w_nothing_drawn : world Z nat :=
  fresh_world (ui_with None (Some "ITRF2014") "2008.1" "ATL06").

(** ** Printing the parameters *)

Definition get_heap {T C : Type} : M (T:=T) (C:=C) (list (list string)) :=
  fun w => (Return (heap w), w).

Section GetParameters.
Context {T : Type} `{PyNumber T}.
Context {C : Type}.

(** [str] of a dict, Python's own rendering, taken as given; [str(None)]
    is ["None"]. *)
Variable dict_str : list (string * pyvalue) -> string.

Definition str_params (h : list (list string)) (r : option dict) : string :=
  match r with
  | None => "None"
  | Some d => dict_str (read_dict h d)
  end.

(** [IceFlowUI.get_parameters]; [change] is what the button passes, unused. *)
Definition get_parameters {E} (change : E) : M (T:=T) (C:=C) unit :=
  r ← build_parameters;
  h ← get_heap;
  print (str_params h r).
End GetParameters.

(** ** Credentials *)

(** The values of the three text widgets [self.username], [self.password]
    and [self.email], which the methods only read. *)
Record login_form : Type := LoginForm {
  username_value : string;
  password_value : string;
  email_value : string
}.

(** [self.iceflow.authenticate]: like the other client operations, taken as
    given; it may raise. *)
Class IceflowLogin (C S : Type) : Type := {
  iceflow_authenticate : string -> string -> string -> C -> outcome S * C
}.

Definition with_credentials {T} (s : IceFlowUI T)
           (c : option (string * string * string)) : IceFlowUI T :=
  UI (last_draw_geometry s) (dates_range_value s) (dataset_value s)
     (itrf_value s) (epoch_value s) (is2_value s) (current_projection s)
     c (start_date s) (end_date s) (datasets_iceflow s).

Section Credentials.
Context {T C Sess : Type} `{IceflowLogin C Sess}.

(** [self.credentials = c]; the dict with the keys [username], [password]
    and [email] is the triple of their values. *)
Definition set_self_credentials (c : option (string * string * string))
  : M (T:=T) (C:=C) unit := fun w =>
  (Return tt,
   World (with_credentials (self w) c) (heap w) (stdout w) (iceflow w) (trace w)).

(** [self.iceflow.authenticate(user, password, email)] *)
Definition call_iceflow_authenticate (user password email : string)
  : M (T:=T) (C:=C) Sess := fun w =>
  let '(r, c) := iceflow_authenticate user password email (iceflow w) in
  (r, World (self w) (heap w) (stdout w) c (trace w)).

(** [IceFlowUI.authenticate]; subscripting [None] raises [TypeError]. *)
Definition authenticate : M (T:=T) (C:=C) Sess :=
  s ← get_self;
  match credentials s with
  | None => lift (Raise TypeError)
  | Some (user, password, email) =>
      session ← call_iceflow_authenticate user password email;
      mret session
  end.

(** [IceFlowUI.set_credentials]; both branches return [None]. *)
Definition set_credentials {E} (event : E) (form : login_form)
  : M (T:=T) (C:=C) unit :=
  if negb (String.eqb (username_value form) "")
     && negb (String.eqb (password_value form) "")
  then
    set_self_credentials
      (Some (username_value form, password_value form, email_value form)) ;;
    authenticate ;;
    mret tt
  else
    print "enter your NASA Earth login credentials" ;;
    set_self_credentials None ;;
    mret tt.
End Credentials.

(** ** Order status *)

(** What the loop of [order_status] can raise: a missing key, a body that
    is not JSON, a failed request. *)
Inductive http_exn : Type :=
| KeyError (key : string)
| JSONDecodeError
| RequestException.

Inductive reply (A : Type) : Type :=
| Ok (a : A)
| Failed (e : http_exn).
Arguments Ok {A} a.
Arguments Failed {A} e.

(** A [requests.Response]: [json()] parses the body or raises. *)
Record response (B : Type) : Type := Response {
  response_json : reply B
}.
Arguments Response {B} _.
Arguments response_json {B} _.

(** An order as [place_data_orders] returns it: a dict whose entry
    [response], when there is one, is the response to the order, a JSON
    object of strings. *)
Record order : Type := Order {
  order_response : option (response (list (string * string)))
}.

(** [body[key]] *)
Fixpoint json_get (body : list (string * string)) (key : string) : reply string :=
  match body with
  | [] => Failed (KeyError key)
  | (k, v) :: rest => if String.eqb k key then Ok v else json_get rest key
  end.

(** [requests.get], over the state [N] of the network, and [str] of a
    status payload [J], both taken as given. *)
Class Requests (N J : Type) : Type := {
  requests_get : string -> N -> reply (response J) * N;
  status_str : J -> string
}.

Section OrderStatus.
Context {N J : Type} `{Requests N J}.

(** [IceFlowUI.order_status], on the network and the output; it uses no
    attribute of [self]. *)
Fixpoint order_status (orders : list order) (net : N) (out : list string)
  : reply unit * N * list string :=
  match orders with
  | [] => (Ok tt, net, out)
  | order :: rest =>
      match order_response order with
      | None => (Failed (KeyError "response"), net, out)
      | Some resp =>
          match response_json resp with
          | Failed e => (Failed e, net, out)
          | Ok body =>
              match json_get body "status_url" with
              | Failed e => (Failed e, net, out)
              | Ok status_url =>
                  match requests_get status_url net with
                  | (Failed e, net') => (Failed e, net', out)
                  | (Ok r, net') =>
                      match response_json r with
                      | Failed e => (Failed e, net', out)
                      | Ok status =>
                          order_status rest net' (out ++ [status_str status])
                      end
                  end
              end
          end
      end
  end.
End OrderStatus.

(** ** More concrete states *)

(** A login service that numbers its sessions. *)
Definition counting_login : IceflowLogin nat nat := {|
  iceflow_authenticate := fun _ _ _ served => (Return served, S served)
|}.

(** A status service that answers every request with the URL asked. *)
Definition echo_requests : Requests nat string := {|
  requests_get := fun url served => (Ok (Response (Ok url)), S served);
  status_str := fun status => status
|}.

(** A geometry without any ring, and one whose first ring has no point. *)
Definition w_no_ring : world Z nat :=
  fresh_world (ui_with (Some (Geometry [])) (Some "ITRF2014") "" "None").

Definition w_empty_ring : world Z nat :=
  fresh_world (ui_with (Some (Geometry [[]; ring_60N])) (Some "ITRF2014") "" "None").

(** The state [w_itrf2014] seen elsewhere: another ring added, other times
    of day, another projection, credentials stored, lists, output and
    requests already there. *)
Definition w_itrf2014_elsewhere : world Z nat :=
  World (UI (Some (Geometry [ring_60N; [(1, 1)%Z]]))
            (Datetime 2015 1 1 3600, Datetime 2015 12 31 4000)
            ["ILATM1B"] (Some "ITRF2014") "" "None" "south"
            (Some ("user", "secret", "")) (Datetime 2015 1 1 0)
            (Datetime 2015 12 31 0) (Some O))
        [["GLAH06"]] ["printed before"] 7 [Call_build_parameters].

Definition form_complete : login_form := LoginForm "user" "secret" "".
Definition form_no_password : login_form := LoginForm "user" "" "user@example.org".

(** An order with a status URL, and one without a response. *)
Definition order_with_url : order :=
  Order (Some (Response (Ok [("order_id", "1"); ("status_url", "https://status/1")]))).
Definition order_without_response : order := Order None.

(** * Properties *)

(** ** The order on numbers *)

Section Order.
Context {T : Type} `{PyNumber T}.

Lemma py_le_refl (x : T) : py_le x x = true.
Proof. unfold py_le. now rewrite py_lt_irrefl. Qed.

Lemma py_le_chain (x y z : T) :
  py_le x y = true -> py_le y z = true -> py_le x z = true.
Proof.
  unfold py_le. rewrite !negb_true_iff. apply py_le_trans.
Qed.

Lemma py_lt_asym (x y : T) : py_lt x y = true -> py_lt y x = false.
Proof.
  intros Hxy. destruct (py_lt y x) eqn:Hyx; [|reflexivity].
  rewrite <- (py_lt_irrefl x). symmetry. exact (py_lt_trans x y x Hxy Hyx).
Qed.

Lemma py_lt_le (x y : T) : py_lt x y = true -> py_le x y = true.
Proof. intros Hxy. unfold py_le. now rewrite (py_lt_asym _ _ Hxy). Qed.

(** ** [min] and [max] bound what they scan *)

Lemma min_from_le_best (items : list T) : forall best,
  py_le (min_from best items) best = true.
Proof.
  induction items as [|item rest IH]; intros best; simpl.
  - apply py_le_refl.
  - destruct (py_lt item best) eqn:Hlt.
    + eapply py_le_chain; [apply IH|]. now apply py_lt_le.
    + apply IH.
Qed.

Lemma min_from_le_item (items : list T) : forall best x,
  In x items -> py_le (min_from best items) x = true.
Proof.
  induction items as [|item rest IH]; intros best x Hin; simpl in *.
  - contradiction.
  - destruct Hin as [->|Hin]; [|now apply IH].
    destruct (py_lt x best) eqn:Hlt.
    + apply min_from_le_best.
    + eapply py_le_chain; [apply min_from_le_best|].
      unfold py_le. now rewrite Hlt.
Qed.

Lemma max_from_ge_best (items : list T) : forall best,
  py_le best (max_from best items) = true.
Proof.
  induction items as [|item rest IH]; intros best; simpl.
  - apply py_le_refl.
  - unfold py_gt. destruct (py_lt best item) eqn:Hlt.
    + eapply py_le_chain; [|apply IH]. now apply py_lt_le.
    + apply IH.
Qed.

Lemma max_from_ge_item (items : list T) : forall best x,
  In x items -> py_le x (max_from best items) = true.
Proof.
  induction items as [|item rest IH]; intros best x Hin; simpl in *.
  - contradiction.
  - destruct Hin as [->|Hin]; [|now apply IH].
    unfold py_gt. destruct (py_lt best x) eqn:Hlt.
    + apply max_from_ge_best.
    + eapply py_le_chain; [|apply max_from_ge_best].
      unfold py_le. now rewrite Hlt.
Qed.

Lemma min_from_bounds (first : T) (rest : list T) (x : T) :
  In x (first :: rest) -> py_le (min_from first rest) x = true.
Proof.
  intros [->|Hin]; [apply min_from_le_best | now apply min_from_le_item].
Qed.

Lemma max_from_bounds (first : T) (rest : list T) (x : T) :
  In x (first :: rest) -> py_le x (max_from first rest) = true.
Proof.
  intros [->|Hin]; [apply max_from_ge_best | now apply max_from_ge_item].
Qed.

(** The box of a ring with at least one point, as [bounding_box] computes it. *)
Lemma bounding_box_cons (p : T * T) (ps : list (T * T)) :
  bounding_box (Some (p :: ps)) =
  Return [(min_from (fst p) (map fst ps), min_from (snd p) (map snd ps));
          (max_from (fst p) (map fst ps), max_from (snd p) (map snd ps))].
Proof. reflexivity. Qed.

(** C2: for a non-empty sequence of points, [bounding_box] returns
    [[(min_x, min_y), (max_x, max_y)]] with [min_x <= max_x] and
    [min_y <= max_y], and every input point [(x, y)] has
    [min_x <= x <= max_x] and [min_y <= y <= max_y].  A single point gives
    the box with both corners equal, which is allowed. *)
Theorem bounding_box_encloses (p : T * T) (ps : list (T * T)) :
  exists min_x min_y max_x max_y,
    bounding_box (Some (p :: ps)) = Return [(min_x, min_y); (max_x, max_y)] /\
    py_le min_x max_x = true /\ py_le min_y max_y = true /\
    forall x y, In (x, y) (p :: ps) ->
      py_le min_x x = true /\ py_le x max_x = true /\
      py_le min_y y = true /\ py_le y max_y = true.
Proof.
  exists (min_from (fst p) (map fst ps)), (min_from (snd p) (map snd ps)),
         (max_from (fst p) (map fst ps)), (max_from (snd p) (map snd ps)).
  split; [apply bounding_box_cons|].
  split; [eapply py_le_chain; [apply min_from_le_best | apply max_from_ge_best]|].
  split; [eapply py_le_chain; [apply min_from_le_best | apply max_from_ge_best]|].
  intros x y Hin.
  assert (Hx : In x (fst p :: map fst ps)).
  { change (In (fst (x, y)) (map fst (p :: ps))). now apply in_map. }
  assert (Hy : In y (snd p :: map snd ps)).
  { change (In (snd (x, y)) (map snd (p :: ps))). now apply in_map. }
  repeat split;
    auto using min_from_bounds, max_from_bounds.
Qed.

(** C4: [bounding_box] fails on an absent geometry and on an empty one,
    at the unpacking of the two coordinate columns ([TypeError] for
    [None], [ValueError] for no point), and does not fail on a sequence
    with at least one point. *)
Theorem bounding_box_fails_iff_no_point :
  bounding_box (T:=T) None = Raise TypeError /\
  bounding_box (T:=T) (Some []) = Raise ValueError /\
  forall points : option (list (T * T)),
    fails (bounding_box points) <-> points = None \/ points = Some [].
Proof.
  split; [reflexivity|]. split; [reflexivity|].
  intros [[|p ps]|]; split.
  - intros _. now right.
  - intros _. now exists ValueError.
  - rewrite bounding_box_cons. intros [e He]. discriminate.
  - intros [Hn|Hn]; discriminate.
  - intros _. now left.
  - intros _. now exists TypeError.
Qed.
End Order.

(** ** The closed form of [build_parameters] *)

Section BuildParameters.
Context {T : Type} `{PyNumber T}.
Context {C G O : Type} `{IceflowClient C G O}.

(** How a sequenced computation runs. *)
Lemma bind_run {A B : Type} (m : M (T:=T) (C:=C) A) (k : A -> M B) (w : world T C) :
  (m ≫= k) w =
  match m w with
  | (Return a, w') => k a w'
  | (Raise e, w') => (Raise e, w')
  end.
Proof. reflexivity. Qed.

Lemma get_datasets_iceflow_run (w : world T C) (l : loc) :
  datasets_iceflow (self w) = Some l ->
  get_datasets_iceflow w = (Return l, w).
Proof. intros Hl. unfold get_datasets_iceflow. now rewrite Hl. Qed.

(** Appending to the list allocated last. *)
Lemma list_append_last (s : IceFlowUI T) (h : store) (c out : list string)
      (cl : C) (tr : list event) (d : string) :
  list_append (length h) d (World s (h ++ [c]) out cl tr)
  = (Return tt, World s (h ++ [c ++ [d]]) out cl tr).
Proof.
  unfold list_append; cbn [self heap stdout iceflow trace].
  replace (length h) with (length h + 0) by lia.
  now rewrite alter_app_r.
Qed.

(** The loop [for d in selected_datasets: self.datasets_iceflow.append(d)]
    extends the list most recently allocated, and nothing else. *)
Lemma for_each_append (ds : list string) :
  forall (s : IceFlowUI T) (h : store) (c out : list string) (cl : C)
         (tr : list event),
    datasets_iceflow s = Some (length h) ->
    for_each ds (fun d => l ← get_datasets_iceflow; list_append l d)
             (World s (h ++ [c]) out cl tr)
    = (Return tt, World s (h ++ [c ++ ds]) out cl tr).
Proof.
  induction ds as [|d ds IH]; intros s h c out cl tr Hl.
  - simpl. now rewrite app_nil_r.
  - cbn [for_each]. rewrite bind_run, bind_run.
    rewrite (get_datasets_iceflow_run _ (length h)) by exact Hl.
    rewrite list_append_last, IH by exact Hl.
    now rewrite <- app_assoc.
Qed.
(** One step of a run: the head of a sequence is a primitive. *)
Ltac run_step :=
  rewrite bind_run;
  cbn [lift log new_list set_datasets_iceflow get_self print mret M_ret
       self heap stdout iceflow trace
       coordinates py_index index2 map lookup list_lookup outcome_bind fst snd].

(** [build_parameters] in closed form, for every state: it logs its call,
    allocates a new list, binds [self.datasets_iceflow] to it, and then
    returns, raises, fills the list and prints as [derived_result],
    [derived_list] and [derived_output] say. *)
Lemma build_parameters_closed (w : world T C) :
  build_parameters w =
  (derived_result (self w) (length (heap w)),
   World (with_datasets_iceflow (self w) (Some (length (heap w))))
         (heap w ++ [derived_list (self w)])
         (stdout w ++ derived_output (self w))
         (iceflow w)
         (trace w ++ [Call_build_parameters])).
Proof.
  destruct w as [s h out cl tr].
  unfold build_parameters, derived_result, derived_list, derived_output, selection_of.
  do 4 run_step.
  cbn [last_draw_geometry with_datasets_iceflow].
  destruct (last_draw_geometry s) as [[[|[|p ps] rest]]|]; cbv beta iota.
  - run_step. now rewrite app_nil_r.
  - do 2 run_step. cbn [bounding_box zip_star unpack2 outcome_bind].
    now rewrite app_nil_r.
  - run_step. rewrite bounding_box_cons.
    do 5 run_step.
    cbn [with_datasets_iceflow dataset_value is2_value epoch_value itrf_value
         dates_range_value].
    rewrite bind_run, for_each_append by reflexivity.
    rewrite bind_run. unfold assembled_datasets, params_for, with_epoch, with_itrf, bbox_string.
    destruct (is2_value s =? "None"); cbn [negb].
    + cbn [mret M_ret].
      rewrite bind_run, (get_datasets_iceflow_run _ (length h)) by reflexivity.
      cbn [mret M_ret]. rewrite !app_nil_r. reflexivity.
    + rewrite bind_run, (get_datasets_iceflow_run _ (length h)) by reflexivity.
      rewrite list_append_last.
      rewrite bind_run, (get_datasets_iceflow_run _ (length h)) by reflexivity.
      cbn [mret M_ret]. rewrite !app_nil_r. reflexivity.
  - run_step. reflexivity.
Qed.

(** What [build_parameters] derives does not depend on the attribute it
    rebinds. *)
Lemma selection_of_frame (s : IceFlowUI T) (l : option nat) :
  selection_of (with_datasets_iceflow s l) = selection_of s.
Proof. reflexivity. Qed.

Lemma derived_result_frame (s : IceFlowUI T) (l : option nat) (fresh : nat) :
  derived_result (with_datasets_iceflow s l) fresh = derived_result s fresh.
Proof. reflexivity. Qed.

Lemma derived_list_frame (s : IceFlowUI T) (l : option nat) :
  derived_list (with_datasets_iceflow s l) = derived_list s.
Proof. reflexivity. Qed.

Lemma selection_of_drawn (s : IceFlowUI T) (g : geometry T) (p : T * T)
      (ps : list (T * T)) (rest : list (list (T * T))) :
  last_draw_geometry s = Some g -> coordinates g = (p :: ps) :: rest ->
  selection_of s = Ring p ps.
Proof. intros Hg Hc. unfold selection_of. now rewrite Hg, Hc. Qed.

(** The keys of the assembled dict. *)
Lemma params_for_has_itrf (s : IceFlowUI T) (p : T * T) (ps : list (T * T)) (l : nat) :
  dict_has (params_for s p ps l) "itrf" =
  py_ne (itrf_value s) "None" && is_not_None (itrf_value s).
Proof.
  unfold params_for, with_epoch, with_itrf.
  destruct (py_ne (itrf_value s) "None" && is_not_None (itrf_value s));
    destruct (negb (epoch_value s =? "None") && negb (epoch_value s =? ""));
    reflexivity.
Qed.

Lemma params_for_has_epoch (s : IceFlowUI T) (p : T * T) (ps : list (T * T)) (l : nat) :
  dict_has (params_for s p ps l) "epoch" =
  negb (epoch_value s =? "None") && negb (epoch_value s =? "").
Proof.
  unfold params_for, with_epoch, with_itrf.
  destruct (py_ne (itrf_value s) "None" && is_not_None (itrf_value s));
    destruct (negb (epoch_value s =? "None") && negb (epoch_value s =? ""));
    reflexivity.
Qed.

Lemma params_for_datasets (s : IceFlowUI T) (p : T * T) (ps : list (T * T)) (l : nat) :
  dict_get (params_for s p ps l) "datasets" = Some (VList l).
Proof.
  unfold params_for, with_epoch, with_itrf.
  destruct (py_ne (itrf_value s) "None" && is_not_None (itrf_value s));
    destruct (negb (epoch_value s =? "None") && negb (epoch_value s =? ""));
    reflexivity.
Qed.

(** The assembled dict reads the same wherever its list has the same content. *)
Lemma read_params_for (s : IceFlowUI T) (p : T * T) (ps : list (T * T))
      (h1 h2 : list (list string)) (l1 l2 : nat) :
  h1 !! l1 = h2 !! l2 ->
  read_dict h1 (params_for s p ps l1) = read_dict h2 (params_for s p ps l2).
Proof.
  intros Hl. unfold params_for, with_epoch, with_itrf.
  destruct (itrf_value s) as [frame|];
    destruct (py_ne _ "None" && is_not_None _);
    destruct (negb (epoch_value s =? "None") && negb (epoch_value s =? ""));
    cbn; now rewrite Hl.
Qed.

(** C3: in every state where no geometry has been drawn, whatever the date
    range, the datasets, itrf, epoch and the secondary dataset are,
    [build_parameters] reports the missing selection (it prints the
    message asking for an area) and returns [None], no parameters. *)
Theorem build_parameters_no_selection (w : world T C) :
  last_draw_geometry (self w) = None ->
  fst (build_parameters w) = Return None /\
  stdout (snd (build_parameters w)) = stdout w ++ [no_selection_message].
Proof.
  intros Hg. rewrite build_parameters_closed. cbn [fst snd stdout].
  unfold derived_result, derived_output, selection_of. now rewrite Hg.
Qed.

(** C5: [build_parameters] is idempotent.  From any state, a second call
    made right after the first gives a result that reads exactly as the
    first one did (same keys, same strings, same dataset list, or the same
    failure), and the first result still reads the same after the second
    call. *)
Theorem build_parameters_idempotent (w : world T C) :
  let (r1, w1) := build_parameters w in
  let (r2, w2) := build_parameters w1 in
  read_result (heap w2) r2 = read_result (heap w1) r1 /\
  read_result (heap w2) r1 = read_result (heap w1) r1.
Proof.
  rewrite build_parameters_closed.
  rewrite build_parameters_closed. cbn [self heap stdout iceflow trace].
  rewrite derived_result_frame, derived_list_frame.
  unfold derived_result, derived_list.
  destruct (selection_of (self w)) as [| | |p ps]; try (split; reflexivity).
  cbn [read_result option_map].
  split; do 2 f_equal; apply read_params_for.
  - rewrite (list_lookup_middle _ [] _ (length (heap w ++ [assembled_datasets (self w)])))
      by reflexivity.
    now rewrite (list_lookup_middle _ [] _ (length (heap w))).
  - rewrite (lookup_app_l_Some _ _ _ (assembled_datasets (self w))).
    + now rewrite (list_lookup_middle _ [] _ (length (heap w))).
    + now apply list_lookup_middle.
Qed.

(** C6, amended: [build_parameters] leaves the geometry, the date range,
    the dataset selection, itrf, epoch, the secondary dataset, the
    projection, the credentials, the start and end dates, the client and
    every list that existed before unchanged; the one attribute it rebinds
    is [datasets_iceflow], which afterwards refers to the one list created
    by this call.  That list holds the selected primary datasets followed
    by the secondary dataset if it is not ["None"] when the geometry drawn
    has a first ring with at least one point, and is empty otherwise
    (nothing drawn, or the call raised on the geometry). *)
Theorem build_parameters_frame (w : world T C) :
  let w' := snd (build_parameters w) in
  last_draw_geometry (self w') = last_draw_geometry (self w) /\
  dates_range_value (self w') = dates_range_value (self w) /\
  dataset_value (self w') = dataset_value (self w) /\
  itrf_value (self w') = itrf_value (self w) /\
  epoch_value (self w') = epoch_value (self w) /\
  is2_value (self w') = is2_value (self w) /\
  current_projection (self w') = current_projection (self w) /\
  credentials (self w') = credentials (self w) /\
  start_date (self w') = start_date (self w) /\
  end_date (self w') = end_date (self w) /\
  iceflow w' = iceflow w /\
  (forall l : nat, l < length (heap w) -> heap w' !! l = heap w !! l) /\
  datasets_iceflow (self w') = Some (length (heap w)) /\
  length (heap w') = S (length (heap w)) /\
  heap w' !! length (heap w) =
    Some (match last_draw_geometry (self w) with
          | Some g =>
              match coordinates g with
              | (_ :: _) :: _ =>
                  dataset_value (self w) ++
                  (if String.eqb (is2_value (self w)) "None" then []
                   else [is2_value (self w)])
              | _ => []
              end
          | None => []
          end).
Proof.
  rewrite build_parameters_closed. cbn [snd self heap iceflow].
  repeat (split; [reflexivity|]).
  split; [|split; [reflexivity|split]].
  - intros l Hl. now apply lookup_app_l.
  - rewrite length_app. cbn [length]. lia.
  - rewrite list_lookup_middle by reflexivity.
    unfold derived_list, selection_of, assembled_datasets.
    destruct (last_draw_geometry (self w)) as [[[|[|p ps] rest]]|]; reflexivity.
Qed.

(** C7: with a drawn geometry, the returned parameters have the key
    [itrf] exactly when the itrf value is neither the string ["None"] nor
    absent ([None], the empty entry of the selector), and the key [epoch]
    exactly when the epoch value is neither ["None"] nor the empty string. *)
Theorem build_parameters_optional_keys (w : world T C) (g : geometry T)
        (p : T * T) (ps : list (T * T)) (rest : list (list (T * T))) :
  last_draw_geometry (self w) = Some g ->
  coordinates g = (p :: ps) :: rest ->
  exists params : dict,
    fst (build_parameters w) = Return (Some params) /\
    (dict_has params "itrf" = true <->
     itrf_value (self w) <> Some "None" /\ itrf_value (self w) <> None) /\
    (dict_has params "epoch" = true <->
     epoch_value (self w) <> "None" /\ epoch_value (self w) <> "").
Proof.
  intros Hg Hc. rewrite build_parameters_closed. cbn [fst].
  unfold derived_result. rewrite (selection_of_drawn _ _ _ _ _ Hg Hc).
  eexists. split; [reflexivity|].
  rewrite params_for_has_itrf, params_for_has_epoch.
  split.
  - destruct (itrf_value (self w)) as [frame|]; cbn [py_ne is_not_None].
    + rewrite andb_true_r, negb_true_iff, String.eqb_neq.
      split; [intros Hne; split; congruence | intros [Hne _]; congruence].
    + split; [discriminate | intros [_ Habs]; congruence].
  - rewrite andb_true_iff, !negb_true_iff, !String.eqb_neq. reflexivity.
Qed.

(** C9: with a drawn geometry, the [datasets] entry of the returned
    parameters is the selected primary datasets in their order, followed
    by the secondary dataset as last element exactly when that value is
    not ["None"]. *)
Theorem build_parameters_datasets (w : world T C) (g : geometry T)
        (p : T * T) (ps : list (T * T)) (rest : list (list (T * T))) :
  last_draw_geometry (self w) = Some g ->
  coordinates g = (p :: ps) :: rest ->
  exists (params : dict) (l : nat),
    fst (build_parameters w) = Return (Some params) /\
    dict_get params "datasets" = Some (VList l) /\
    heap (snd (build_parameters w)) !! l =
    Some (dataset_value (self w) ++
          (if String.eqb (is2_value (self w)) "None" then []
           else [is2_value (self w)])).
Proof.
  intros Hg Hc. rewrite build_parameters_closed. cbn [fst snd heap].
  unfold derived_result, derived_list. rewrite (selection_of_drawn _ _ _ _ _ Hg Hc).
  eexists. exists (length (heap w)).
  split; [reflexivity|]. split; [apply params_for_datasets|].
  now apply list_lookup_middle.
Qed.
End BuildParameters.

(** ** Dispatch to the client *)

Section Dispatch.
Context {T : Type} `{PyNumber T}.
Context {C G O : Type} `{IceflowClient C G O}.
Context {E : Type}.

(** [query_cmr] with parameters given: the client call and nothing else. *)
Lemma query_cmr_given (event : option E) (p : dict) (w : world T C) :
  query_cmr event (Some p) w =
  (fst (iceflow_query_cmr (Some p) (heap w) (iceflow w)),
   World (self w) (heap w) (stdout w)
         (snd (iceflow_query_cmr (Some p) (heap w) (iceflow w)))
         (trace w ++ [Call_iceflow_query_cmr (Some p)])).
Proof.
  unfold query_cmr. cbn [is_None].
  rewrite bind_run. cbn [mret M_ret]. rewrite bind_run.
  unfold call_iceflow_query_cmr.
  destruct (iceflow_query_cmr (Some p) (heap w) (iceflow w)) as [[granules|e] c];
    reflexivity.
Qed.

Lemma place_data_orders_given (event : option E) (p : dict) (w : world T C) :
  place_data_orders event (Some p) w =
  (fst (iceflow_post_data_orders (Some p) (heap w) (iceflow w)),
   World (self w) (heap w) (stdout w)
         (snd (iceflow_post_data_orders (Some p) (heap w) (iceflow w)))
         (trace w ++ [Call_iceflow_post_data_orders (Some p)])).
Proof.
  unfold place_data_orders. cbn [is_None].
  rewrite bind_run. cbn [mret M_ret]. rewrite bind_run.
  unfold call_iceflow_post_data_orders.
  destruct (iceflow_post_data_orders (Some p) (heap w) (iceflow w)) as [[orders|e] c];
    reflexivity.
Qed.

(** [query_cmr] with no parameters given and nothing drawn: [build_parameters]
    runs, returns [None], and [None] goes to the client. *)
Lemma query_cmr_nothing_drawn (event : option E) (w : world T C) :
  last_draw_geometry (self w) = None ->
  query_cmr event None w =
  (fst (iceflow_query_cmr None (heap w ++ [[]]) (iceflow w)),
   World (with_datasets_iceflow (self w) (Some (length (heap w))))
         (heap w ++ [[]]) (stdout w ++ [no_selection_message])
         (snd (iceflow_query_cmr None (heap w ++ [[]]) (iceflow w)))
         (trace w ++ [Call_build_parameters; Call_iceflow_query_cmr None])).
Proof.
  intros Hg. unfold query_cmr. cbn [is_None].
  rewrite bind_run, build_parameters_closed.
  unfold derived_result, derived_list, derived_output, selection_of. rewrite Hg.
  rewrite bind_run. unfold call_iceflow_query_cmr. cbn [self heap stdout iceflow trace].
  rewrite <- app_assoc. cbn [app].
  destruct (iceflow_query_cmr None (heap w ++ [[]]) (iceflow w)) as [[granules|e] c];
    reflexivity.
Qed.

Lemma place_data_orders_nothing_drawn (event : option E) (w : world T C) :
  last_draw_geometry (self w) = None ->
  place_data_orders event None w =
  (fst (iceflow_post_data_orders None (heap w ++ [[]]) (iceflow w)),
   World (with_datasets_iceflow (self w) (Some (length (heap w))))
         (heap w ++ [[]]) (stdout w ++ [no_selection_message])
         (snd (iceflow_post_data_orders None (heap w ++ [[]]) (iceflow w)))
         (trace w ++ [Call_build_parameters; Call_iceflow_post_data_orders None])).
Proof.
  intros Hg. unfold place_data_orders. cbn [is_None].
  rewrite bind_run, build_parameters_closed.
  unfold derived_result, derived_list, derived_output, selection_of. rewrite Hg.
  rewrite bind_run. unfold call_iceflow_post_data_orders.
  cbn [self heap stdout iceflow trace].
  rewrite <- app_assoc. cbn [app].
  destruct (iceflow_post_data_orders None (heap w ++ [[]]) (iceflow w)) as [[orders|e] c];
    reflexivity.
Qed.

(** C1, amended: in every state where no geometry has been drawn,
    [query_cmr] called without parameters runs [build_parameters] and then
    invokes the client's query operation exactly once, with the [None]
    that [build_parameters] returned, and returns what the client returns;
    [place_data_orders] does the same with the client's order operation. *)
Theorem dispatch_nothing_drawn (event : option E) (w : world T C) :
  last_draw_geometry (self w) = None ->
  (fst (query_cmr event None w) =
     fst (iceflow_query_cmr None (heap w ++ [[]]) (iceflow w)) /\
   trace (snd (query_cmr event None w)) =
     trace w ++ [Call_build_parameters; Call_iceflow_query_cmr None]) /\
  (fst (place_data_orders event None w) =
     fst (iceflow_post_data_orders None (heap w ++ [[]]) (iceflow w)) /\
   trace (snd (place_data_orders event None w)) =
     trace w ++ [Call_build_parameters; Call_iceflow_post_data_orders None]).
Proof.
  intros Hg.
  rewrite (query_cmr_nothing_drawn event w Hg).
  rewrite (place_data_orders_nothing_drawn event w Hg).
  repeat split.
Qed.

(** C10: given parameters [p] that are not [None], [query_cmr] and
    [place_data_orders] do not call [build_parameters]: the only call made
    is the client's query (resp. order) operation with [p] itself, its
    result is returned, and the attributes, the lists and the output are
    left as they were. *)
Theorem dispatch_given_parameters (event : option E) (p : dict) (w : world T C) :
  (fst (query_cmr event (Some p) w) =
     fst (iceflow_query_cmr (Some p) (heap w) (iceflow w)) /\
   trace (snd (query_cmr event (Some p) w)) =
     trace w ++ [Call_iceflow_query_cmr (Some p)] /\
   self (snd (query_cmr event (Some p) w)) = self w /\
   heap (snd (query_cmr event (Some p) w)) = heap w /\
   stdout (snd (query_cmr event (Some p) w)) = stdout w) /\
  (fst (place_data_orders event (Some p) w) =
     fst (iceflow_post_data_orders (Some p) (heap w) (iceflow w)) /\
   trace (snd (place_data_orders event (Some p) w)) =
     trace w ++ [Call_iceflow_post_data_orders (Some p)] /\
   self (snd (place_data_orders event (Some p) w)) = self w /\
   heap (snd (place_data_orders event (Some p) w)) = heap w /\
   stdout (snd (place_data_orders event (Some p) w)) = stdout w).
Proof.
  rewrite query_cmr_given, place_data_orders_given.
  repeat split.
Qed.
End Dispatch.

(** ** Runs on concrete states *)

Section Runs.
#[local] Existing Instance counting_client.
Local Open Scope Z_scope.

(** C8: with the ring [(-10,60), (-10,65), (0,65), (0,60)] drawn, the date
    range 2015-01-01 to 2015-12-31, the datasets [["ILATM1B"]], itrf
    ["ITRF2014"], an empty epoch and the secondary dataset ["None"],
    [build_parameters] returns exactly the entries [start], [end], [bbox],
    [datasets] and [itrf] below, and no [epoch] entry. *)
Theorem build_parameters_itrf2014 {C : Type} (w : world Z C) :
  last_draw_geometry (self w) =
    Some (Geometry [[(-10, 60); (-10, 65); (0, 65); (0, 60)]]) ->
  datetime_date (fst (dates_range_value (self w))) = Date 2015 1 1 ->
  datetime_date (snd (dates_range_value (self w))) = Date 2015 12 31 ->
  dataset_value (self w) = ["ILATM1B"] ->
  itrf_value (self w) = Some "ITRF2014" ->
  epoch_value (self w) = "" ->
  is2_value (self w) = "None" ->
  read_result (heap (snd (build_parameters w))) (fst (build_parameters w)) =
  Return (Some [("start", PStr "2015-01-01");
                ("end", PStr "2015-12-31");
                ("bbox", PStr "-10,60,0,65");
                ("datasets", PList ["ILATM1B"]);
                ("itrf", PStr "ITRF2014")]).
Proof.
  intros Hg Hstart Hend Hds Hitrf Hepoch His2.
  rewrite build_parameters_closed. cbn [fst snd heap].
  unfold derived_result, derived_list, selection_of. rewrite Hg.
  cbn [coordinates read_result option_map].
  rewrite (read_params_for _ _ _ _ [assembled_datasets (self w)] _ 0%nat)
    by now rewrite list_lookup_middle.
  unfold params_for, with_epoch, with_itrf, assembled_datasets.
  rewrite Hstart, Hend, Hds, Hitrf, Hepoch, His2.
  reflexivity.
Qed.

(** The run of C8 on [w_itrf2014]. *)
Lemma build_parameters_itrf2014_run :
  read_result (heap (snd (build_parameters w_itrf2014)))
              (fst (build_parameters w_itrf2014)) =
  Return (Some [("start", PStr "2015-01-01");
                ("end", PStr "2015-12-31");
                ("bbox", PStr "-10,60,0,65");
                ("datasets", PList ["ILATM1B"]);
                ("itrf", PStr "ITRF2014")]).
Proof. apply (build_parameters_itrf2014 w_itrf2014); reflexivity. Defined.

(** The box of the ring of C8, over Python [int]. *)
Lemma bounding_box_encloses_run :
  exists min_x min_y max_x max_y : Z,
    bounding_box (Some ring_60N) = Return [(min_x, min_y); (max_x, max_y)] /\
    py_le min_x max_x = true /\ py_le min_y max_y = true /\
    forall x y, In (x, y) ring_60N ->
      py_le min_x x = true /\ py_le x max_x = true /\
      py_le min_y y = true /\ py_le y max_y = true.
Proof. exact (bounding_box_encloses (-10, 60) [(-10, 65); (0, 65); (0, 60)]). Defined.

(** Nothing drawn, every other field set: [None] and the message. *)
Lemma build_parameters_no_selection_run :
  last_draw_geometry (self w_nothing_drawn) = None /\
  fst (build_parameters w_nothing_drawn) = Return None /\
  stdout (snd (build_parameters w_nothing_drawn)) =
    stdout w_nothing_drawn ++ [no_selection_message].
Proof.
  split; [reflexivity|].
  apply (build_parameters_no_selection w_nothing_drawn). reflexivity.
Defined.

(** The optional keys on [w_itrf2014]: [itrf] is there, [epoch] is not. *)
Lemma build_parameters_optional_keys_run :
  exists params : dict,
    fst (build_parameters w_itrf2014) = Return (Some params) /\
    (dict_has params "itrf" = true <->
     itrf_value (self w_itrf2014) <> Some "None" /\
     itrf_value (self w_itrf2014) <> None) /\
    (dict_has params "epoch" = true <->
     epoch_value (self w_itrf2014) <> "None" /\
     epoch_value (self w_itrf2014) <> "").
Proof.
  apply (build_parameters_optional_keys w_itrf2014 (Geometry [ring_60N])
           (-10, 60) [(-10, 65); (0, 65); (0, 60)] []); reflexivity.
Defined.

(** The secondary dataset [ATL06] comes last. *)
Lemma build_parameters_datasets_run :
  exists (params : dict) (l : nat),
    fst (build_parameters w_atl06) = Return (Some params) /\
    dict_get params "datasets" = Some (VList l) /\
    heap (snd (build_parameters w_atl06)) !! l = Some (["ILATM1B"] ++ ["ATL06"]).
Proof.
  apply (build_parameters_datasets w_atl06 (Geometry [ring_60N])
           (-10, 60) [(-10, 65); (0, 65); (0, 60)] []); reflexivity.
Defined.

(** Nothing drawn and no parameters given, with the counting client. *)
Lemma dispatch_nothing_drawn_run :
  last_draw_geometry (self w_nothing_drawn) = None /\
  (fst (query_cmr (E:=unit) None None w_nothing_drawn) = Return O /\
   trace (snd (query_cmr (E:=unit) None None w_nothing_drawn)) =
     [] ++ [Call_build_parameters; Call_iceflow_query_cmr None]) /\
  (fst (place_data_orders (E:=unit) None None w_nothing_drawn) = Return O /\
   trace (snd (place_data_orders (E:=unit) None None w_nothing_drawn)) =
     [] ++ [Call_build_parameters; Call_iceflow_post_data_orders None]).
Proof.
  split; [reflexivity|].
  exact (dispatch_nothing_drawn (E:=unit) None w_nothing_drawn eq_refl).
Defined.

(** C1 as stated fails: with nothing drawn and no parameters given, both
    methods do reach the client, which serves one request each time. *)
Lemma dispatch_nothing_drawn_reaches_client :
  last_draw_geometry (self w_nothing_drawn) = None /\
  trace w_nothing_drawn = [] /\ iceflow w_nothing_drawn = O /\
  In (Call_iceflow_query_cmr None)
     (trace (snd (query_cmr (E:=unit) None None w_nothing_drawn))) /\
  iceflow (snd (query_cmr (E:=unit) None None w_nothing_drawn)) = 1%nat /\
  In (Call_iceflow_post_data_orders None)
     (trace (snd (place_data_orders (E:=unit) None None w_nothing_drawn))) /\
  iceflow (snd (place_data_orders (E:=unit) None None w_nothing_drawn)) = 1%nat.
Proof.
  repeat split; try reflexivity; vm_compute; tauto.
Qed.

(** C6 as stated fails: the attribute [datasets_iceflow] is rebound by
    every call, the first one and the next. *)
Lemma build_parameters_rebinds_datasets_iceflow :
  datasets_iceflow (self w_itrf2014) = None /\
  datasets_iceflow (self (snd (build_parameters w_itrf2014))) = Some 0%nat /\
  datasets_iceflow
    (self (snd (build_parameters (snd (build_parameters w_itrf2014))))) =
    Some 1%nat /\
  self (snd (build_parameters w_itrf2014)) <> self w_itrf2014.
Proof.
  repeat split; try reflexivity. intros Heq.
  apply (f_equal datasets_iceflow) in Heq. discriminate Heq.
Qed.
(** The whole result on [w_atl06]: itrf is the string ["None"], so there is
    no [itrf] entry. *)
Lemma build_parameters_atl06_run :
  read_result (heap (snd (build_parameters w_atl06)))
              (fst (build_parameters w_atl06)) =
  Return (Some [("start", PStr "2015-01-01");
                ("end", PStr "2015-12-31");
                ("bbox", PStr "-10,60,0,65");
                ("datasets", PList ["ILATM1B"; "ATL06"])]).
Proof. reflexivity. Qed.

(** Line 294 tests itrf against ["None"] and [None] only: an empty string,
    which the selector does not offer, would be kept. *)
Lemma build_parameters_keeps_empty_itrf :
  exists params : dict,
    fst (build_parameters
           (fresh_world (ui_with (Some (Geometry [ring_60N])) (Some "") "" "None")))
    = Return (Some params) /\
    dict_get params "itrf" = Some (VStr "").
Proof. eexists. split; reflexivity. Qed.
(** The list that [datasets_iceflow] is rebound to: empty when nothing is
    drawn, the assembled datasets on [w_atl06]. *)
Lemma build_parameters_frame_run :
  heap (snd (build_parameters w_nothing_drawn)) !! 0%nat = Some [] /\
  heap (snd (build_parameters w_atl06)) !! 0%nat = Some ["ILATM1B"; "ATL06"].
Proof.
  split.
  - pose proof (build_parameters_frame w_nothing_drawn) as Hframe.
    do 14 (destruct Hframe as [_ Hframe]). exact Hframe.
  - pose proof (build_parameters_frame w_atl06) as Hframe.
    do 14 (destruct Hframe as [_ Hframe]). exact Hframe.
Defined.
End Runs.

(** * Further properties *)

(** ** The box is the smallest one *)

Section Box.
Context {T : Type} `{PyNumber T}.

Lemma min_from_in (items : list T) : forall best,
  In (min_from best items) (best :: items).
Proof.
  induction items as [|item rest IH]; intros best; simpl.
  - now left.
  - destruct (IH (if py_lt item best then item else best)) as [Heq|Hin].
    + rewrite <- Heq. destruct (py_lt item best); [right; now left | now left].
    + right. now right.
Qed.

Lemma max_from_in (items : list T) : forall best,
  In (max_from best items) (best :: items).
Proof.
  induction items as [|item rest IH]; intros best; simpl.
  - now left.
  - destruct (IH (if py_gt item best then item else best)) as [Heq|Hin].
    + rewrite <- Heq. destruct (py_gt item best); [right; now left | now left].
    + right. now right.
Qed.

(** X1: each of the four numbers of the box is a coordinate of some input
    point: the x of the corners are x of points, the y are y of points. *)
Theorem bounding_box_corners_attained (p : T * T) (ps : list (T * T)) :
  exists min_x min_y max_x max_y,
    bounding_box (Some (p :: ps)) = Return [(min_x, min_y); (max_x, max_y)] /\
    In min_x (map fst (p :: ps)) /\ In min_y (map snd (p :: ps)) /\
    In max_x (map fst (p :: ps)) /\ In max_y (map snd (p :: ps)).
Proof.
  exists (min_from (fst p) (map fst ps)), (min_from (snd p) (map snd ps)),
         (max_from (fst p) (map fst ps)), (max_from (snd p) (map snd ps)).
  split; [apply bounding_box_cons|].
  cbn [map]. auto using min_from_in, max_from_in.
Qed.

Lemma in_fst_point (x : T) (points : list (T * T)) :
  In x (map fst points) -> exists y, In (x, y) points.
Proof.
  intros Hin. apply in_map_iff in Hin. destruct Hin as [[x' y] [Hx Hin]].
  simpl in Hx. subst x'. now exists y.
Qed.

Lemma in_snd_point (y : T) (points : list (T * T)) :
  In y (map snd points) -> exists x, In (x, y) points.
Proof.
  intros Hin. apply in_map_iff in Hin. destruct Hin as [[x y'] [Hy Hin]].
  simpl in Hy. subst y'. now exists x.
Qed.

(** X2: the box is the smallest enclosing one: every rectangle
    [lo_x..hi_x], [lo_y..hi_y] that holds all the points holds the box. *)
Theorem bounding_box_smallest (p : T * T) (ps : list (T * T))
        (lo_x lo_y hi_x hi_y : T) :
  (forall x y, In (x, y) (p :: ps) ->
     py_le lo_x x = true /\ py_le x hi_x = true /\
     py_le lo_y y = true /\ py_le y hi_y = true) ->
  exists min_x min_y max_x max_y,
    bounding_box (Some (p :: ps)) = Return [(min_x, min_y); (max_x, max_y)] /\
    py_le lo_x min_x = true /\ py_le max_x hi_x = true /\
    py_le lo_y min_y = true /\ py_le max_y hi_y = true.
Proof.
  intros Hall.
  exists (min_from (fst p) (map fst ps)), (min_from (snd p) (map snd ps)),
         (max_from (fst p) (map fst ps)), (max_from (snd p) (map snd ps)).
  split; [apply bounding_box_cons|].
  repeat split.
  - destruct (in_fst_point _ (p :: ps) (min_from_in (map fst ps) (fst p))) as [y Hin].
    now apply (Hall _ y).
  - destruct (in_fst_point _ (p :: ps) (max_from_in (map fst ps) (fst p))) as [y Hin].
    now apply (Hall _ y).
  - destruct (in_snd_point _ (p :: ps) (min_from_in (map snd ps) (snd p))) as [x Hin].
    now apply (Hall x).
  - destruct (in_snd_point _ (p :: ps) (max_from_in (map snd ps) (snd p))) as [x Hin].
    now apply (Hall x).
Qed.

Lemma min_from_repeat (x : T) (n : nat) : min_from x (repeat x n) = x.
Proof. induction n as [|n IH]; simpl; [reflexivity|]. now rewrite py_lt_irrefl. Qed.

Lemma max_from_repeat (x : T) (n : nat) : max_from x (repeat x n) = x.
Proof.
  induction n as [|n IH]; simpl; [reflexivity|].
  unfold py_gt. now rewrite py_lt_irrefl.
Qed.

(** X3: a ring that repeats one point any number of times has the
    degenerate box with that point at both corners. *)
Theorem bounding_box_repeated_point (x y : T) (n : nat) :
  bounding_box (Some (repeat (x, y) (S n))) = Return [(x, y); (x, y)].
Proof.
  cbn [repeat]. rewrite bounding_box_cons. cbn [fst snd].
  rewrite !List.map_repeat. cbn [fst snd].
  now rewrite !min_from_repeat, !max_from_repeat.
Qed.

(** X4: the box does not depend on the order of the points: two rings
    with the same points in another order have boxes whose numbers are
    equal in the order ([<=] both ways). *)
Theorem bounding_box_permutation (p q : T * T) (ps qs : list (T * T)) :
  Permutation (p :: ps) (q :: qs) ->
  exists a b c d a' b' c' d',
    bounding_box (Some (p :: ps)) = Return [(a, b); (c, d)] /\
    bounding_box (Some (q :: qs)) = Return [(a', b'); (c', d')] /\
    (py_le a a' = true /\ py_le a' a = true) /\
    (py_le b b' = true /\ py_le b' b = true) /\
    (py_le c c' = true /\ py_le c' c = true) /\
    (py_le d d' = true /\ py_le d' d = true).
Proof.
  intros Hperm.
  assert (Hx : Permutation (fst p :: map fst ps) (fst q :: map fst qs))
    by exact (Permutation_map fst Hperm).
  assert (Hy : Permutation (snd p :: map snd ps) (snd q :: map snd qs))
    by exact (Permutation_map snd Hperm).
  do 8 eexists.
  split; [apply bounding_box_cons|]. split; [apply bounding_box_cons|].
  repeat split.
  - apply min_from_bounds. apply (Permutation_in _ (Permutation_sym Hx)), min_from_in.
  - apply min_from_bounds. apply (Permutation_in _ Hx), min_from_in.
  - apply min_from_bounds. apply (Permutation_in _ (Permutation_sym Hy)), min_from_in.
  - apply min_from_bounds. apply (Permutation_in _ Hy), min_from_in.
  - apply max_from_bounds. apply (Permutation_in _ Hx), max_from_in.
  - apply max_from_bounds. apply (Permutation_in _ (Permutation_sym Hx)), max_from_in.
  - apply max_from_bounds. apply (Permutation_in _ Hy), max_from_in.
  - apply max_from_bounds. apply (Permutation_in _ (Permutation_sym Hy)), max_from_in.
Qed.

(** X5: adding points to a ring can only widen the box: the box of the
    longer ring holds the box of the shorter one. *)
Theorem bounding_box_widens (p : T * T) (ps more : list (T * T)) :
  exists a b c d a' b' c' d',
    bounding_box (Some (p :: ps)) = Return [(a, b); (c, d)] /\
    bounding_box (Some (p :: ps ++ more)) = Return [(a', b'); (c', d')] /\
    py_le a' a = true /\ py_le b' b = true /\
    py_le c c' = true /\ py_le d d' = true.
Proof.
  do 8 eexists.
  split; [apply bounding_box_cons|]. split; [apply bounding_box_cons|].
  assert (Hsub : forall (f : T * T -> T) z,
             In z (f p :: map f ps) -> In z (f p :: map f (ps ++ more))).
  { intros f z [Hz|Hz]; [now left|right].
    rewrite map_app. apply in_or_app. now left. }
  repeat split.
  - apply min_from_bounds, (Hsub fst), min_from_in.
  - apply min_from_bounds, (Hsub snd), min_from_in.
  - apply max_from_bounds, (Hsub fst), max_from_in.
  - apply max_from_bounds, (Hsub snd), max_from_in.
Qed.
End Box.

(** ** The dates sent *)

Section Dates.

(** A number below 10000 padded to four digits is four characters. *)
Lemma padded_4_shape (n : nat) :
  n < 10 * 1000 ->
  exists c1 c2 c3 c4,
    padded 4 n = String c1 (String c2 (String c3 (String c4 EmptyString))).
Proof.
  intros Hn.
  assert (Hall : forallb (fun k =>
            match padded 4 k with
            | String _ (String _ (String _ (String _ EmptyString))) => true
            | _ => false
            end) (seq 0 (10 * 1000)) = true) by (vm_compute; reflexivity).
  rewrite forallb_forall in Hall.
  specialize (Hall n). rewrite in_seq in Hall. specialize (Hall ltac:(lia)).
  destruct (padded 4 n) as [|c1 [|c2 [|c3 [|c4 [|c5 rest]]]]]; try discriminate.
  now exists c1, c2, c3, c4.
Qed.

(** A number below 100 padded to two digits is two characters. *)
Lemma padded_2_shape (n : nat) :
  n < 100 ->
  exists c1 c2, padded 2 n = String c1 (String c2 EmptyString).
Proof.
  intros Hn.
  assert (Hall : forallb (fun k =>
            match padded 2 k with
            | String _ (String _ EmptyString) => true
            | _ => false
            end) (seq 0 100) = true) by (vm_compute; reflexivity).
  rewrite forallb_forall in Hall.
  specialize (Hall n). rewrite in_seq in Hall. specialize (Hall ltac:(lia)).
  destruct (padded 2 n) as [|c1 [|c2 [|c3 rest]]]; try discriminate.
  now exists c1, c2.
Qed.

(** X6: for a calendar date with a four-digit year, the string sent is
    ten characters long with the two dashes at positions 4 and 7. *)
Theorem strftime_Ymd_format (d : date) :
  1000 <= year d < 10 * 1000 -> 1 <= month d <= 12 -> 1 <= day d <= 31 ->
  String.length (strftime_Ymd d) = 10 /\
  String.get 4 (strftime_Ymd d) = Some "-"%char /\
  String.get 7 (strftime_Ymd d) = Some "-"%char.
Proof.
  intros Hy Hm Hd. unfold strftime_Ymd.
  destruct (padded_4_shape (year d)) as (y1 & y2 & y3 & y4 & ->); [lia|].
  destruct (padded_2_shape (month d)) as (m1 & m2 & ->); [lia|].
  destruct (padded_2_shape (day d)) as (d1 & d2 & ->); [lia|].
  repeat split.
Qed.
(** Reading a rendered number back gives the number. *)
Lemma str_nat_decode (n : nat) :
  option_map Nat.of_uint (NilZero.uint_of_string (str_nat n)) = Some n.
Proof.
  unfold str_nat. pose proof (DecimalNat.Unsigned.of_to n) as Hn.
  destruct (Nat.to_uint n) as [|u|u|u|u|u|u|u|u|u|u] eqn:Hu;
    try (rewrite NilZero.usu by discriminate; cbn [option_map]; now rewrite Hn).
  cbn in Hn. subst n. reflexivity.
Qed.

Lemma str_nat_inj (a b : nat) : str_nat a = str_nat b -> a = b.
Proof.
  intros Heq. pose proof (str_nat_decode a) as Ha.
  rewrite Heq, str_nat_decode in Ha. congruence.
Qed.

Lemma padded_4_year (n : nat) :
  1000 <= n < 10 * 1000 -> padded 4 n = str_nat n.
Proof.
  intros Hn.
  assert (Hall : forallb (fun k => String.eqb (padded 4 k) (str_nat k))
                         (seq 1000 (9 * 1000)) = true) by (vm_compute; reflexivity).
  rewrite forallb_forall in Hall.
  apply String.eqb_eq, Hall, in_seq. lia.
Qed.

Lemma padded_2_inj (a b : nat) :
  a < 100 -> b < 100 -> padded 2 a = padded 2 b -> a = b.
Proof.
  intros Ha Hb Heq.
  assert (Hall : forallb (fun i => forallb (fun j =>
            implb (String.eqb (padded 2 i) (padded 2 j)) (Nat.eqb i j))
            (seq 0 100)) (seq 0 100) = true) by (vm_compute; reflexivity).
  rewrite forallb_forall in Hall.
  specialize (Hall a ltac:(apply in_seq; lia)).
  rewrite forallb_forall in Hall.
  specialize (Hall b ltac:(apply in_seq; lia)).
  apply String.eqb_eq in Heq. rewrite Heq in Hall. now apply Nat.eqb_eq.
Qed.

(** X7: two calendar dates with four-digit years that are sent as the
    same string are the same date. *)
Theorem strftime_Ymd_inj (d1 d2 : date) :
  1000 <= year d1 < 10 * 1000 -> 1 <= month d1 <= 12 -> 1 <= day d1 <= 31 ->
  1000 <= year d2 < 10 * 1000 -> 1 <= month d2 <= 12 -> 1 <= day d2 <= 31 ->
  strftime_Ymd d1 = strftime_Ymd d2 -> d1 = d2.
Proof.
  intros Hy1 Hm1 Hd1 Hy2 Hm2 Hd2. unfold strftime_Ymd.
  destruct (padded_4_shape (year d1)) as (a1 & a2 & a3 & a4 & Ea); [lia|].
  destruct (padded_4_shape (year d2)) as (b1 & b2 & b3 & b4 & Eb); [lia|].
  destruct (padded_2_shape (month d1)) as (a5 & a6 & Ema); [lia|].
  destruct (padded_2_shape (month d2)) as (b5 & b6 & Emb); [lia|].
  destruct (padded_2_shape (day d1)) as (a7 & a8 & Eda); [lia|].
  destruct (padded_2_shape (day d2)) as (b7 & b8 & Edb); [lia|].
  rewrite Ea, Eb, Ema, Emb, Eda, Edb. cbn [String.append].
  intros Heq. injection Heq as -> -> -> -> -> -> -> ->.
  rewrite <- Eb in Ea. rewrite <- Emb in Ema. rewrite <- Edb in Eda.
  rewrite !padded_4_year in Ea by lia.
  apply str_nat_inj in Ea.
  apply padded_2_inj in Ema; [|lia|lia].
  apply padded_2_inj in Eda; [|lia|lia].
  destruct d1, d2; cbn in *; congruence.
Qed.
End Dates.

(** ** More on [build_parameters] *)

Section Parameters.
Context {T : Type} `{PyNumber T}.
Context {C : Type}.

(** X8: a geometry that is drawn but has no ring makes [build_parameters]
    raise [IndexError], and one whose first ring has no point makes it
    raise [ValueError]; either way nothing is printed, the client is not
    touched, and [datasets_iceflow] is left bound to a new empty list. *)
Theorem build_parameters_malformed_geometry (w : world T C) (g : geometry T) :
  last_draw_geometry (self w) = Some g ->
  (coordinates g = [] -> fst (build_parameters w) = Raise IndexError) /\
  (forall rest, coordinates g = [] :: rest ->
     fst (build_parameters w) = Raise ValueError) /\
  (coordinates g = [] \/ (exists rest, coordinates g = [] :: rest) ->
   snd (build_parameters w) =
   World (with_datasets_iceflow (self w) (Some (length (heap w))))
         (heap w ++ [[]]) (stdout w) (iceflow w)
         (trace w ++ [Call_build_parameters])).
Proof.
  intros Hg. rewrite build_parameters_closed. cbn [fst snd].
  unfold derived_result, derived_list, derived_output, selection_of. rewrite Hg.
  split; [|split].
  - now intros ->.
  - now intros rest ->.
  - intros [->|[rest ->]]; now rewrite app_nil_r.
Qed.

(** X9: the keys of the returned parameters, in order: [start], [end],
    [bbox], [datasets], then [itrf] if it is kept, then [epoch] if it is
    kept; nothing else. *)
Theorem build_parameters_keys (w : world T C) (g : geometry T)
        (p : T * T) (ps : list (T * T)) (rest : list (list (T * T))) :
  last_draw_geometry (self w) = Some g ->
  coordinates g = (p :: ps) :: rest ->
  exists params : dict,
    fst (build_parameters w) = Return (Some params) /\
    map fst params =
      ["start"; "end"; "bbox"; "datasets"] ++
      match itrf_value (self w) with
      | Some frame => if String.eqb frame "None" then [] else ["itrf"]
      | None => []
      end ++
      (if String.eqb (epoch_value (self w)) "None"
          || String.eqb (epoch_value (self w)) ""
       then [] else ["epoch"]).
Proof.
  intros Hg Hc. rewrite build_parameters_closed. cbn [fst].
  unfold derived_result. rewrite (selection_of_drawn _ _ _ _ _ Hg Hc).
  eexists. split; [reflexivity|].
  unfold params_for, with_epoch, with_itrf.
  destruct (itrf_value (self w)) as [frame|]; cbn [py_ne is_not_None];
    [destruct (String.eqb frame "None")|];
    destruct (String.eqb (epoch_value (self w)) "None");
    destruct (String.eqb (epoch_value (self w)) "");
    reflexivity.
Qed.

(** X10: the three strings of the returned parameters: [start] and [end]
    are the two dates of the range as year-month-day, and [bbox] is the
    four numbers of the box of the first ring, min x, min y, max x, max y,
    joined by commas. *)
Theorem build_parameters_strings (w : world T C) (g : geometry T)
        (p : T * T) (ps : list (T * T)) (rest : list (list (T * T)))
        (a b c d : T) :
  last_draw_geometry (self w) = Some g ->
  coordinates g = (p :: ps) :: rest ->
  bounding_box (Some (p :: ps)) = Return [(a, b); (c, d)] ->
  exists params : dict,
    fst (build_parameters w) = Return (Some params) /\
    dict_get params "start" =
      Some (VStr (strftime_Ymd (datetime_date (fst (dates_range_value (self w)))))) /\
    dict_get params "end" =
      Some (VStr (strftime_Ymd (datetime_date (snd (dates_range_value (self w)))))) /\
    dict_get params "bbox" =
      Some (VStr (py_str a +:+ "," +:+ py_str b +:+ "," +:+
                  py_str c +:+ "," +:+ py_str d)).
Proof.
  intros Hg Hc Hbox. rewrite bounding_box_cons in Hbox.
  injection Hbox as <- <- <- <-.
  rewrite build_parameters_closed. cbn [fst].
  unfold derived_result. rewrite (selection_of_drawn _ _ _ _ _ Hg Hc).
  eexists. split; [reflexivity|].
  unfold params_for, with_epoch, with_itrf, bbox_string.
  destruct (py_ne (itrf_value (self w)) "None" && is_not_None (itrf_value (self w)));
    destruct (negb (epoch_value (self w) =? "None")
              && negb (epoch_value (self w) =? ""));
    repeat split.
Qed.

(** X11: a kept [itrf] or [epoch] goes into the parameters as it is; the
    epoch text is not inspected beyond the two tests. *)
Theorem build_parameters_optional_values (w : world T C) (g : geometry T)
        (p : T * T) (ps : list (T * T)) (rest : list (list (T * T))) :
  last_draw_geometry (self w) = Some g ->
  coordinates g = (p :: ps) :: rest ->
  exists params : dict,
    fst (build_parameters w) = Return (Some params) /\
    (forall frame, itrf_value (self w) = Some frame -> frame <> "None" ->
       dict_get params "itrf" = Some (VStr frame)) /\
    (epoch_value (self w) <> "None" -> epoch_value (self w) <> "" ->
       dict_get params "epoch" = Some (VStr (epoch_value (self w)))).
Proof.
  intros Hg Hc. rewrite build_parameters_closed. cbn [fst].
  unfold derived_result. rewrite (selection_of_drawn _ _ _ _ _ Hg Hc).
  eexists. split; [reflexivity|].
  unfold params_for, with_epoch, with_itrf.
  split.
  - intros frame -> Hne. apply String.eqb_neq in Hne.
    cbn [py_ne is_not_None value_of_str]. rewrite Hne. cbn [negb andb].
    destruct (negb (epoch_value (self w) =? "None")
              && negb (epoch_value (self w) =? "")); reflexivity.
  - intros Hne1 Hne2. apply String.eqb_neq in Hne1, Hne2.
    rewrite Hne1, Hne2. cbn [negb andb].
    destruct (py_ne (itrf_value (self w)) "None" && is_not_None (itrf_value (self w)));
      reflexivity.
Qed.

(** X12: the list under [datasets] in the returned parameters is the very
    list that [self.datasets_iceflow] is bound to afterwards, not a copy. *)
Theorem build_parameters_datasets_alias (w : world T C) (g : geometry T)
        (p : T * T) (ps : list (T * T)) (rest : list (list (T * T))) :
  last_draw_geometry (self w) = Some g ->
  coordinates g = (p :: ps) :: rest ->
  exists (params : dict) (l : nat),
    fst (build_parameters w) = Return (Some params) /\
    dict_get params "datasets" = Some (VList l) /\
    datasets_iceflow (self (snd (build_parameters w))) = Some l.
Proof.
  intros Hg Hc. rewrite build_parameters_closed. cbn [fst snd self].
  unfold derived_result. rewrite (selection_of_drawn _ _ _ _ _ Hg Hc).
  eexists. exists (length (heap w)).
  split; [reflexivity|]. split; [apply params_for_datasets | reflexivity].
Qed.

(** X13: a result already returned is not altered by a later call, whatever
    was changed in between in the selection, the output or the client. *)
Theorem build_parameters_result_kept (w : world T C) (s' : IceFlowUI T)
        (out' : list string) (c' : C) (tr' : list event) :
  let (r1, w1) := build_parameters w in
  read_result (heap (snd (build_parameters (World s' (heap w1) out' c' tr')))) r1
  = read_result (heap w1) r1.
Proof.
  rewrite build_parameters_closed.
  rewrite build_parameters_closed. cbn [snd self heap].
  unfold derived_result.
  destruct (selection_of (self w)) as [| | |p ps]; try reflexivity.
  cbn [read_result option_map]. do 2 f_equal. apply read_params_for.
  rewrite (lookup_app_l_Some _ _ _ (derived_list (self w))).
  - now rewrite (list_lookup_middle _ [] _ (length (heap w))).
  - now apply list_lookup_middle.
Qed.

(** X14: what one call does besides returning: it makes no call to the
    client, prints the message exactly when no geometry is drawn, and
    creates exactly one list. *)
Theorem build_parameters_effects (w : world T C) :
  trace (snd (build_parameters w)) = trace w ++ [Call_build_parameters] /\
  stdout (snd (build_parameters w)) =
    stdout w ++ (if is_None (last_draw_geometry (self w))
                 then [no_selection_message] else []) /\
  length (heap (snd (build_parameters w))) = S (length (heap w)).
Proof.
  rewrite build_parameters_closed. cbn [snd trace stdout heap].
  split; [reflexivity|]. split.
  - unfold derived_output, selection_of.
    destruct (last_draw_geometry (self w)) as [[[|[|p ps] rest]]|]; reflexivity.
  - rewrite length_app. cbn. lia.
Qed.
End Parameters.

(** ** What the parameters depend on *)

Section Reads.
Context {T : Type} `{PyNumber T}.

Lemma read_params_for_agree (s1 s2 : IceFlowUI T) (p : T * T) (ps : list (T * T))
      (h1 h2 : list (list string)) (l1 l2 : nat) :
  datetime_date (fst (dates_range_value s1)) = datetime_date (fst (dates_range_value s2)) ->
  datetime_date (snd (dates_range_value s1)) = datetime_date (snd (dates_range_value s2)) ->
  itrf_value s1 = itrf_value s2 ->
  epoch_value s1 = epoch_value s2 ->
  h1 !! l1 = h2 !! l2 ->
  read_dict h1 (params_for s1 p ps l1) = read_dict h2 (params_for s2 p ps l2).
Proof.
  intros Hstart Hend Hitrf Hepoch Hl.
  rewrite <- (read_params_for s2 p ps h1 h2 l1 l2 Hl).
  unfold params_for, with_epoch, with_itrf.
  now rewrite Hstart, Hend, Hitrf, Hepoch.
Qed.

(** X15: the result depends only on the first ring of the geometry, the
    calendar dates of the range, the dataset selection, itrf, epoch and
    the secondary dataset.  Two states that agree on these, whatever their
    other rings, times of day, other attributes, lists, output and client,
    get results that read the same. *)
Theorem build_parameters_reads_only {C1 C2 : Type}
        (w1 : world T C1) (w2 : world T C2) :
  option_map (fun g => hd_error (coordinates g)) (last_draw_geometry (self w1)) =
  option_map (fun g => hd_error (coordinates g)) (last_draw_geometry (self w2)) ->
  datetime_date (fst (dates_range_value (self w1))) =
  datetime_date (fst (dates_range_value (self w2))) ->
  datetime_date (snd (dates_range_value (self w1))) =
  datetime_date (snd (dates_range_value (self w2))) ->
  dataset_value (self w1) = dataset_value (self w2) ->
  itrf_value (self w1) = itrf_value (self w2) ->
  epoch_value (self w1) = epoch_value (self w2) ->
  is2_value (self w1) = is2_value (self w2) ->
  read_result (heap (snd (build_parameters w1))) (fst (build_parameters w1)) =
  read_result (heap (snd (build_parameters w2))) (fst (build_parameters w2)).
Proof.
  intros Hgeo Hstart Hend Hds Hitrf Hepoch His2.
  rewrite !build_parameters_closed. cbn [fst snd heap].
  assert (Hsel : selection_of (self w1) = selection_of (self w2)).
  { unfold selection_of.
    destruct (last_draw_geometry (self w1)) as [[rings1]|];
      destruct (last_draw_geometry (self w2)) as [[rings2]|];
      try discriminate; [|reflexivity].
    cbn in Hgeo. cbn [coordinates].
    destruct rings1 as [|r1 rest1]; destruct rings2 as [|r2 rest2];
      try discriminate; [reflexivity|].
    injection Hgeo as ->. reflexivity. }
  unfold derived_result, derived_list. rewrite Hsel.
  destruct (selection_of (self w2)) as [| | |p ps]; try reflexivity.
  cbn [read_result option_map]. do 2 f_equal.
  apply read_params_for_agree; try assumption.
  rewrite !list_lookup_middle by reflexivity.
  unfold assembled_datasets. now rewrite Hds, His2.
Qed.
End Reads.

(** ** More on the dispatch *)

Section Dispatching.
Context {T : Type} `{PyNumber T}.
Context {C G O : Type} `{IceflowClient C G O}.
Context {E : Type}.

(** Without parameters given, both methods are [build_parameters]
    followed, if it returns, by the client call on what it returned. *)
Lemma query_cmr_omitted_run (event : option E) (w : world T C) :
  query_cmr event None w =
  match build_parameters w with
  | (Return params, w1) => call_iceflow_query_cmr params w1
  | (Raise e, w1) => (Raise e, w1)
  end.
Proof.
  unfold query_cmr. cbn [is_None]. rewrite bind_run.
  destruct (build_parameters w) as [[params|e] w1]; [|reflexivity].
  rewrite bind_run.
  destruct (call_iceflow_query_cmr params w1) as [[granules|e] w2]; reflexivity.
Qed.

Lemma place_data_orders_omitted_run (event : option E) (w : world T C) :
  place_data_orders event None w =
  match build_parameters w with
  | (Return params, w1) => call_iceflow_post_data_orders params w1
  | (Raise e, w1) => (Raise e, w1)
  end.
Proof.
  unfold place_data_orders. cbn [is_None]. rewrite bind_run.
  destruct (build_parameters w) as [[params|e] w1]; [|reflexivity].
  rewrite bind_run.
  destruct (call_iceflow_post_data_orders params w1) as [[orders|e] w2]; reflexivity.
Qed.

(** X16: with a geometry drawn and no parameters given, [query_cmr] and
    [place_data_orders] call the client once, after [build_parameters],
    with exactly the parameters that [build_parameters] returns in that
    state, and return the client's result. *)
Theorem dispatch_builds_then_calls (event : option E) (w : world T C)
        (g : geometry T) (p : T * T) (ps : list (T * T))
        (rest : list (list (T * T))) :
  last_draw_geometry (self w) = Some g ->
  coordinates g = (p :: ps) :: rest ->
  exists params : dict,
    fst (build_parameters w) = Return (Some params) /\
    (fst (query_cmr event None w) =
       fst (iceflow_query_cmr (Some params) (heap (snd (build_parameters w)))
                              (iceflow w)) /\
     trace (snd (query_cmr event None w)) =
       trace w ++ [Call_build_parameters; Call_iceflow_query_cmr (Some params)]) /\
    (fst (place_data_orders event None w) =
       fst (iceflow_post_data_orders (Some params)
                                     (heap (snd (build_parameters w))) (iceflow w)) /\
     trace (snd (place_data_orders event None w)) =
       trace w ++ [Call_build_parameters;
                   Call_iceflow_post_data_orders (Some params)]).
Proof.
  intros Hg Hc.
  rewrite query_cmr_omitted_run, place_data_orders_omitted_run.
  rewrite build_parameters_closed. cbn [fst snd heap].
  unfold derived_result. rewrite (selection_of_drawn _ _ _ _ _ Hg Hc).
  eexists. split; [reflexivity|].
  unfold call_iceflow_query_cmr, call_iceflow_post_data_orders.
  cbn [self heap stdout iceflow trace].
  destruct (iceflow_query_cmr _ _ _) as [r1 c1].
  destruct (iceflow_post_data_orders _ _ _) as [r2 c2].
  cbn [fst snd trace]. rewrite <- !app_assoc. repeat split.
Qed.

(** X17: when [build_parameters] raises, [query_cmr] and
    [place_data_orders] called without parameters raise the same
    exception and stop there: the client is not called. *)
Theorem dispatch_stops_on_raise (event : option E) (w : world T C) (e : exn) :
  fst (build_parameters w) = Raise e ->
  query_cmr event None w = (Raise e, snd (build_parameters w)) /\
  place_data_orders event None w = (Raise e, snd (build_parameters w)) /\
  iceflow (snd (build_parameters w)) = iceflow w /\
  trace (snd (build_parameters w)) = trace w ++ [Call_build_parameters].
Proof.
  intros Hraise.
  rewrite query_cmr_omitted_run, place_data_orders_omitted_run.
  split; [|split].
  - destruct (build_parameters w) as [r w1]. cbn in *. now subst r.
  - destruct (build_parameters w) as [r w1]. cbn in *. now subst r.
  - rewrite build_parameters_closed. split; reflexivity.
Qed.
End Dispatching.

(** ** Credentials *)

Section Login.
Context {T C Sess : Type} `{IceflowLogin C Sess}.
Context {E : Type}.

(** The two branches of [set_credentials], run. *)
Lemma set_credentials_incomplete_run (event : E) (form : login_form)
      (w : world T C) :
  username_value form = "" \/ password_value form = "" ->
  set_credentials event form w =
  (Return tt,
   World (with_credentials (self w) None) (heap w)
         (stdout w ++ ["enter your NASA Earth login credentials"])
         (iceflow w) (trace w)).
Proof.
  intros Hempty. unfold set_credentials.
  assert (Hcond : negb (username_value form =? "")
                  && negb (password_value form =? "") = false).
  { destruct Hempty as [-> | ->]; cbn; [reflexivity | apply andb_false_r]. }
  rewrite Hcond. reflexivity.
Qed.

Lemma set_credentials_complete_run (event : E) (form : login_form)
      (w : world T C) :
  username_value form <> "" -> password_value form <> "" ->
  set_credentials event form w =
  (match fst (iceflow_authenticate (username_value form) (password_value form)
                                   (email_value form) (iceflow w)) with
   | Return _ => Return tt
   | Raise e => Raise e
   end,
   World (with_credentials (self w)
            (Some (username_value form, password_value form, email_value form)))
         (heap w) (stdout w)
         (snd (iceflow_authenticate (username_value form) (password_value form)
                                    (email_value form) (iceflow w)))
         (trace w)).
Proof.
  intros Hu Hp. apply String.eqb_neq in Hu, Hp.
  unfold set_credentials. rewrite Hu, Hp. cbn [negb andb].
  rewrite !bind_run. cbn [set_self_credentials].
  rewrite bind_run. unfold authenticate. rewrite bind_run.
  cbn [get_self self with_credentials credentials].
  rewrite bind_run. unfold call_iceflow_authenticate.
  cbn [self heap stdout iceflow trace].
  destruct (iceflow_authenticate _ _ _ _) as [[session|e] c]; reflexivity.
Qed.

(** [authenticate] with credentials stored. *)
Lemma authenticate_stored (w : world T C) (user password email : string) :
  credentials (self w) = Some (user, password, email) ->
  authenticate w =
  (fst (iceflow_authenticate user password email (iceflow w)),
   World (self w) (heap w) (stdout w)
         (snd (iceflow_authenticate user password email (iceflow w)))
         (trace w)).
Proof.
  intros Hc. unfold authenticate. rewrite bind_run. cbn [get_self].
  rewrite Hc, bind_run. unfold call_iceflow_authenticate.
  destruct (iceflow_authenticate _ _ _ _) as [[session|e] c]; reflexivity.
Qed.

(** X18: when the user name or the password is empty, [set_credentials]
    returns [None] after asking for the credentials; it forgets the ones
    stored before and does not contact the client. *)
Theorem set_credentials_incomplete (event : E) (form : login_form)
        (w : world T C) :
  username_value form = "" \/ password_value form = "" ->
  fst (set_credentials event form w) = Return tt /\
  credentials (self (snd (set_credentials event form w))) = None /\
  stdout (snd (set_credentials event form w)) =
    stdout w ++ ["enter your NASA Earth login credentials"] /\
  iceflow (snd (set_credentials event form w)) = iceflow w.
Proof.
  intros Hempty. rewrite (set_credentials_incomplete_run event form w Hempty).
  repeat split.
Qed.

(** X19: when user name and password are both non-empty, [set_credentials]
    stores the three values, the e-mail also when it is empty, and logs in
    with them once, printing nothing.  It returns [None] if the login
    returns and raises what the login raises; the values stay stored in
    both cases. *)
Theorem set_credentials_complete (event : E) (form : login_form)
        (w : world T C) :
  username_value form <> "" -> password_value form <> "" ->
  fst (set_credentials event form w) =
    match fst (iceflow_authenticate (username_value form) (password_value form)
                                    (email_value form) (iceflow w)) with
    | Return _ => Return tt
    | Raise e => Raise e
    end /\
  credentials (self (snd (set_credentials event form w))) =
    Some (username_value form, password_value form, email_value form) /\
  iceflow (snd (set_credentials event form w)) =
    snd (iceflow_authenticate (username_value form) (password_value form)
                              (email_value form) (iceflow w)) /\
  stdout (snd (set_credentials event form w)) = stdout w.
Proof.
  intros Hu Hp. rewrite (set_credentials_complete_run event form w Hu Hp).
  repeat split.
Qed.

(** X20: after [set_credentials] with an empty user name or password,
    [authenticate] raises [TypeError] and does not contact the client,
    whatever credentials were stored before. *)
Theorem authenticate_after_incomplete (event : E) (form : login_form)
        (w : world T C) :
  username_value form = "" \/ password_value form = "" ->
  authenticate (snd (set_credentials event form w)) =
  (Raise TypeError, snd (set_credentials event form w)).
Proof.
  intros Hempty. rewrite (set_credentials_incomplete_run event form w Hempty).
  reflexivity.
Qed.

(** X21: after [set_credentials] with user name and password both
    non-empty, also when that login raised, [authenticate] logs in again
    with the same three values and returns what the client gives. *)
Theorem authenticate_after_complete (event : E) (form : login_form)
        (w : world T C) :
  username_value form <> "" -> password_value form <> "" ->
  fst (authenticate (snd (set_credentials event form w))) =
  fst (iceflow_authenticate (username_value form) (password_value form)
         (email_value form) (iceflow (snd (set_credentials event form w)))).
Proof.
  intros Hu Hp. rewrite (set_credentials_complete_run event form w Hu Hp).
  cbn [snd].
  now rewrite (authenticate_stored _ (username_value form) (password_value form)
                 (email_value form)) by reflexivity.
Qed.
End Login.

(** ** Printing the parameters *)

Section Printing.
Context {T : Type} `{PyNumber T}.
Context {C E : Type}.
Variable dict_str : list (string * pyvalue) -> string.

(** [get_parameters] is [build_parameters] followed by one [print]. *)
Lemma get_parameters_run (change : E) (w : world T C) :
  get_parameters dict_str change w =
  match build_parameters w with
  | (Return r, w1) =>
      (Return tt,
       World (self w1) (heap w1) (stdout w1 ++ [str_params dict_str (heap w1) r])
             (iceflow w1) (trace w1))
  | (Raise e, w1) => (Raise e, w1)
  end.
Proof.
  unfold get_parameters. rewrite bind_run.
  destruct (build_parameters w) as [[r|e] w1]; reflexivity.
Qed.

(** X22: with nothing drawn, [get_parameters] prints two lines, the
    request to select an area and then [None], and leaves the client
    alone. *)
Theorem get_parameters_nothing_drawn (change : E) (w : world T C) :
  last_draw_geometry (self w) = None ->
  fst (get_parameters dict_str change w) = Return tt /\
  stdout (snd (get_parameters dict_str change w)) =
    stdout w ++ [no_selection_message; "None"] /\
  iceflow (snd (get_parameters dict_str change w)) = iceflow w.
Proof.
  intros Hg. rewrite get_parameters_run, build_parameters_closed.
  unfold derived_result, derived_output, selection_of. rewrite Hg.
  cbn [fst snd stdout iceflow str_params]. rewrite <- app_assoc. repeat split.
Qed.

(** X23: with a geometry drawn, [get_parameters] prints one line, the
    rendering of the parameters that [build_parameters] returns in that
    state, the dataset list read at that moment. *)
Theorem get_parameters_drawn (change : E) (w : world T C) (g : geometry T)
        (p : T * T) (ps : list (T * T)) (rest : list (list (T * T))) :
  last_draw_geometry (self w) = Some g ->
  coordinates g = (p :: ps) :: rest ->
  exists params : list (string * pyvalue),
    read_result (heap (snd (build_parameters w))) (fst (build_parameters w)) =
      Return (Some params) /\
    fst (get_parameters dict_str change w) = Return tt /\
    stdout (snd (get_parameters dict_str change w)) =
      stdout w ++ [dict_str params].
Proof.
  intros Hg Hc. rewrite get_parameters_run, build_parameters_closed.
  unfold derived_result, derived_output. rewrite (selection_of_drawn _ _ _ _ _ Hg Hc).
  cbn [fst snd stdout heap str_params read_result option_map].
  eexists. split; [reflexivity|]. split; [reflexivity|].
  now rewrite app_nil_r.
Qed.
End Printing.

(** ** Order status *)

Section Statuses.
Context {N J : Type} `{Requests N J}.

(** The loop over a concatenation. *)
Lemma order_status_app_run (xs ys : list order) : forall (net : N) (out : list string),
  order_status (xs ++ ys) net out =
  match order_status xs net out with
  | (Ok _, net', out') => order_status ys net' out'
  | (Failed e, net', out') => (Failed e, net', out')
  end.
Proof.
  induction xs as [|x xs IH]; intros net out; [reflexivity|].
  cbn [app order_status].
  destruct (order_response x) as [resp|]; [|reflexivity].
  destruct (response_json resp) as [body|e]; [|reflexivity].
  destruct (json_get body "status_url") as [url|e]; [|reflexivity].
  destruct (requests_get url net) as [[r|e] net']; [|reflexivity].
  destruct (response_json r) as [status|e]; [|reflexivity].
  apply IH.
Qed.

(** X24: [order_status] on a list of orders followed by another: if the
    first list ends without raising, the result is that of the second list
    run from the network and output then reached; if the first raises,
    the result is that of the first alone and nothing of the second is
    fetched. *)
Theorem order_status_app (xs ys : list order) (net : N) (out : list string) :
  (fst (fst (order_status xs net out)) = Ok tt ->
   order_status (xs ++ ys) net out =
   order_status ys (snd (fst (order_status xs net out)))
                   (snd (order_status xs net out))) /\
  (forall e, fst (fst (order_status xs net out)) = Failed e ->
   order_status (xs ++ ys) net out = order_status xs net out).
Proof.
  rewrite order_status_app_run.
  destruct (order_status xs net out) as [[[[]|e] net'] out']; cbn [fst snd].
  - split; [reflexivity | discriminate].
  - split; [discriminate | reflexivity].
Qed.

(** X25: [order_status] only adds lines to the output, at most one per
    order, and exactly one per order when it ends without raising. *)
Theorem order_status_prints (orders : list order) : forall (net : N) (out : list string),
  exists printed : list string,
    snd (order_status orders net out) = out ++ printed /\
    length printed <= length orders /\
    (fst (fst (order_status orders net out)) = Ok tt ->
     length printed = length orders).
Proof.
  induction orders as [|x xs IH]; intros net out.
  - exists []. cbn. rewrite app_nil_r. repeat split; lia.
  - cbn [order_status].
    destruct (order_response x) as [resp|];
      [|exists []; cbn; rewrite app_nil_r; repeat split; [lia | discriminate]].
    destruct (response_json resp) as [body|e];
      [|exists []; cbn; rewrite app_nil_r; repeat split; [lia | discriminate]].
    destruct (json_get body "status_url") as [url|e];
      [|exists []; cbn; rewrite app_nil_r; repeat split; [lia | discriminate]].
    destruct (requests_get url net) as [[r|e] net'];
      [|exists []; cbn; rewrite app_nil_r; repeat split; [lia | discriminate]].
    destruct (response_json r) as [status|e];
      [|exists []; cbn; rewrite app_nil_r; repeat split; [lia | discriminate]].
    destruct (IH net' (out ++ [status_str status])) as (printed & Hout & Hle & Hok).
    exists (status_str status :: printed).
    rewrite Hout, <- app_assoc. cbn [app length].
    split; [reflexivity|]. split; [lia|]. intros Hr. now rewrite Hok.
Qed.

(** X26: an order without a response, a response that is not JSON or has
    no [status_url], stops the loop before any request is made for it:
    the network is as the orders before it left it. *)
Theorem order_status_no_url (xs ys : list order) (x : order)
        (net : N) (out : list string) (e : http_exn) :
  match order_response x with
  | None => e = KeyError "response"
  | Some resp =>
      match response_json resp with
      | Failed e' => e = e'
      | Ok body => json_get body "status_url" = Failed e
      end
  end ->
  fst (fst (order_status xs net out)) = Ok tt ->
  order_status (xs ++ x :: ys) net out =
  (Failed e, snd (fst (order_status xs net out)), snd (order_status xs net out)).
Proof.
  intros Hx Hok. rewrite order_status_app_run.
  destruct (order_status xs net out) as [[r net'] out']. cbn in Hok. subst r.
  cbn [fst snd order_status].
  destruct (order_response x) as [resp|]; [|now subst e].
  destruct (response_json resp) as [body|e']; [|now subst e].
  now rewrite Hx.
Qed.
End Statuses.

(** ** Further runs on concrete states *)

Section MoreRuns.
#[local] Existing Instance counting_client.
#[local] Existing Instance counting_login.
#[local] Existing Instance echo_requests.
Local Open Scope Z_scope.

(** The box of [ring_60N] lies within the rectangle from (-20, 50) to (10, 70). *)
Lemma bounding_box_smallest_run :
  exists min_x min_y max_x max_y : Z,
    bounding_box (Some ring_60N) = Return [(min_x, min_y); (max_x, max_y)] /\
    py_le (-20) min_x = true /\ py_le max_x 10 = true /\
    py_le 50 min_y = true /\ py_le max_y 70 = true.
Proof.
  apply (bounding_box_smallest (-10, 60) [(-10, 65); (0, 65); (0, 60)]
           (-20) 50 10 70).
  intros x y Hin. cbn in Hin.
  repeat destruct Hin as [Hin|Hin]; try contradiction;
    injection Hin as <- <-; repeat split.
Defined.

(** The ring walked the other way round. *)
Lemma bounding_box_permutation_run :
  exists a b c d a' b' c' d' : Z,
    bounding_box (Some ring_60N) = Return [(a, b); (c, d)] /\
    bounding_box (Some (rev ring_60N)) = Return [(a', b'); (c', d')] /\
    (py_le a a' = true /\ py_le a' a = true) /\
    (py_le b b' = true /\ py_le b' b = true) /\
    (py_le c c' = true /\ py_le c' c = true) /\
    (py_le d d' = true /\ py_le d' d = true).
Proof.
  apply (bounding_box_permutation (-10, 60) (0, 60)
           [(-10, 65); (0, 65); (0, 60)] [(0, 65); (-10, 65); (-10, 60)]).
  exact (Permutation_rev ring_60N).
Defined.

Lemma strftime_Ymd_format_run :
  String.length (strftime_Ymd (Date 2015 12 31)) = 10%nat /\
  String.get 4 (strftime_Ymd (Date 2015 12 31)) = Some "-"%char /\
  String.get 7 (strftime_Ymd (Date 2015 12 31)) = Some "-"%char.
Proof. apply (strftime_Ymd_format (Date 2015 12 31)); cbn; lia. Defined.

Lemma strftime_Ymd_inj_run :
  strftime_Ymd (Date 2015 1 1) = "2015-01-01" /\ Date 2015 1 1 = Date 2015 1 1.
Proof.
  split; [reflexivity|].
  apply (strftime_Ymd_inj (Date 2015 1 1) (Date 2015 1 1)); cbn; try lia.
  reflexivity.
Defined.

Lemma build_parameters_malformed_geometry_run :
  (coordinates (T:=Z) (Geometry []) = [] ->
   fst (build_parameters w_no_ring) = Raise IndexError) /\
  (forall rest, coordinates (T:=Z) (Geometry []) = [] :: rest ->
     fst (build_parameters w_no_ring) = Raise ValueError) /\
  (coordinates (T:=Z) (Geometry []) = [] \/
   (exists rest, coordinates (T:=Z) (Geometry []) = [] :: rest) ->
   snd (build_parameters w_no_ring) =
   World (with_datasets_iceflow (self w_no_ring) (Some (length (heap w_no_ring))))
         (heap w_no_ring ++ [[]]) (stdout w_no_ring) (iceflow w_no_ring)
         (trace w_no_ring ++ [Call_build_parameters])).
Proof.
  apply (build_parameters_malformed_geometry w_no_ring (Geometry [])). reflexivity.
Defined.

Lemma build_parameters_keys_run :
  exists params : dict,
    fst (build_parameters w_itrf2014) = Return (Some params) /\
    map fst params = ["start"; "end"; "bbox"; "datasets"; "itrf"].
Proof.
  exact (build_parameters_keys w_itrf2014 (Geometry [ring_60N])
           (-10, 60) [(-10, 65); (0, 65); (0, 60)] [] eq_refl eq_refl).
Defined.

Lemma build_parameters_strings_run :
  exists params : dict,
    fst (build_parameters w_itrf2014) = Return (Some params) /\
    dict_get params "start" = Some (VStr "2015-01-01") /\
    dict_get params "end" = Some (VStr "2015-12-31") /\
    dict_get params "bbox" = Some (VStr "-10,60,0,65").
Proof.
  exact (build_parameters_strings w_itrf2014 (Geometry [ring_60N])
           (-10, 60) [(-10, 65); (0, 65); (0, 60)] [] (-10) 60 0 65
           eq_refl eq_refl eq_refl).
Defined.

Lemma build_parameters_optional_values_run :
  exists params : dict,
    fst (build_parameters w_itrf2014) = Return (Some params) /\
    (forall frame, Some "ITRF2014" = Some frame -> frame <> "None" ->
       dict_get params "itrf" = Some (VStr frame)) /\
    ("" <> "None" -> "" <> "" -> dict_get params "epoch" = Some (VStr "")).
Proof.
  exact (build_parameters_optional_values w_itrf2014 (Geometry [ring_60N])
           (-10, 60) [(-10, 65); (0, 65); (0, 60)] [] eq_refl eq_refl).
Defined.

Lemma build_parameters_datasets_alias_run :
  exists (params : dict) (l : nat),
    fst (build_parameters w_atl06) = Return (Some params) /\
    dict_get params "datasets" = Some (VList l) /\
    datasets_iceflow (self (snd (build_parameters w_atl06))) = Some l.
Proof.
  exact (build_parameters_datasets_alias w_atl06 (Geometry [ring_60N])
           (-10, 60) [(-10, 65); (0, 65); (0, 60)] [] eq_refl eq_refl).
Defined.

Lemma build_parameters_reads_only_run :
  read_result (heap (snd (build_parameters w_itrf2014)))
              (fst (build_parameters w_itrf2014)) =
  read_result (heap (snd (build_parameters w_itrf2014_elsewhere)))
              (fst (build_parameters w_itrf2014_elsewhere)).
Proof.
  apply (build_parameters_reads_only w_itrf2014 w_itrf2014_elsewhere);
    reflexivity.
Defined.

Lemma dispatch_builds_then_calls_run :
  exists params : dict,
    fst (build_parameters w_itrf2014) = Return (Some params) /\
    (fst (query_cmr (E:=unit) None None w_itrf2014) = Return O /\
     trace (snd (query_cmr (E:=unit) None None w_itrf2014)) =
       [Call_build_parameters; Call_iceflow_query_cmr (Some params)]) /\
    (fst (place_data_orders (E:=unit) None None w_itrf2014) = Return O /\
     trace (snd (place_data_orders (E:=unit) None None w_itrf2014)) =
       [Call_build_parameters; Call_iceflow_post_data_orders (Some params)]).
Proof.
  exact (dispatch_builds_then_calls (E:=unit) None w_itrf2014 (Geometry [ring_60N])
           (-10, 60) [(-10, 65); (0, 65); (0, 60)] [] eq_refl eq_refl).
Defined.

Lemma dispatch_stops_on_raise_run :
  query_cmr (E:=unit) None None w_empty_ring =
    (Raise ValueError, snd (build_parameters w_empty_ring)) /\
  place_data_orders (E:=unit) None None w_empty_ring =
    (Raise ValueError, snd (build_parameters w_empty_ring)) /\
  iceflow (snd (build_parameters w_empty_ring)) = iceflow w_empty_ring /\
  trace (snd (build_parameters w_empty_ring)) =
    trace w_empty_ring ++ [Call_build_parameters].
Proof.
  exact (dispatch_stops_on_raise (E:=unit) None w_empty_ring ValueError eq_refl).
Defined.

Lemma set_credentials_incomplete_witness :
  fst (set_credentials tt form_no_password w_itrf2014_elsewhere) = Return tt /\
  credentials (self (snd (set_credentials tt form_no_password w_itrf2014_elsewhere))) =
    None /\
  stdout (snd (set_credentials tt form_no_password w_itrf2014_elsewhere)) =
    stdout w_itrf2014_elsewhere ++ ["enter your NASA Earth login credentials"] /\
  iceflow (snd (set_credentials tt form_no_password w_itrf2014_elsewhere)) =
    iceflow w_itrf2014_elsewhere.
Proof.
  exact (set_credentials_incomplete tt form_no_password w_itrf2014_elsewhere
           (or_intror eq_refl)).
Defined.

Lemma set_credentials_complete_witness :
  fst (set_credentials tt form_complete w_nothing_drawn) = Return tt /\
  credentials (self (snd (set_credentials tt form_complete w_nothing_drawn))) =
    Some ("user", "secret", "") /\
  iceflow (snd (set_credentials tt form_complete w_nothing_drawn)) = 1%nat /\
  stdout (snd (set_credentials tt form_complete w_nothing_drawn)) = [].
Proof.
  refine (set_credentials_complete tt form_complete w_nothing_drawn _ _);
    discriminate.
Defined.

Lemma authenticate_after_incomplete_run :
  authenticate (snd (set_credentials tt form_no_password w_itrf2014_elsewhere)) =
  (Raise TypeError, snd (set_credentials tt form_no_password w_itrf2014_elsewhere)).
Proof.
  exact (authenticate_after_incomplete tt form_no_password w_itrf2014_elsewhere
           (or_intror eq_refl)).
Defined.

Lemma authenticate_after_complete_run :
  fst (authenticate (snd (set_credentials tt form_complete w_nothing_drawn))) =
  Return 1%nat.
Proof.
  refine (authenticate_after_complete tt form_complete w_nothing_drawn _ _);
    discriminate.
Defined.

Lemma get_parameters_nothing_drawn_run :
  fst (get_parameters (fun _ => "{...}") tt w_nothing_drawn) = Return tt /\
  stdout (snd (get_parameters (fun _ => "{...}") tt w_nothing_drawn)) =
    [] ++ [no_selection_message; "None"] /\
  iceflow (snd (get_parameters (fun _ => "{...}") tt w_nothing_drawn)) = O.
Proof.
  exact (get_parameters_nothing_drawn (fun _ => "{...}") tt w_nothing_drawn
           eq_refl).
Defined.

Lemma get_parameters_drawn_run :
  exists params : list (string * pyvalue),
    read_result (heap (snd (build_parameters w_itrf2014)))
                (fst (build_parameters w_itrf2014)) = Return (Some params) /\
    fst (get_parameters (fun _ => "{...}") tt w_itrf2014) = Return tt /\
    stdout (snd (get_parameters (fun _ => "{...}") tt w_itrf2014)) =
      [] ++ ["{...}"].
Proof.
  exact (get_parameters_drawn (fun _ => "{...}") tt w_itrf2014 (Geometry [ring_60N])
           (-10, 60) [(-10, 65); (0, 65); (0, 60)] [] eq_refl eq_refl).
Defined.

(** One status fetched and printed, then an order without response. *)
Lemma order_status_no_url_run :
  order_status ([order_with_url] ++ order_without_response :: [order_with_url])
               O [] =
  (Failed (KeyError "response"), 1%nat, ["https://status/1"]).
Proof.
  exact (order_status_no_url [order_with_url] [order_with_url]
           order_without_response O [] (KeyError "response") eq_refl eq_refl).
Defined.
End MoreRuns.
